(** * FitStack server: plan generation, credentials and storage queries

    A shallow embedding of the server-side TypeScript of the fitness
    application:

    - [server/openai.ts]: the deterministic template generator
      [generateFallbackPlan];
    - [server/auth.ts]: password hashing, token issuance and verification,
      the [requireAuth] middleware;
    - [server/storage.ts]: the queries [getActivePlanByUserId],
      [getProgressChart], [getUserStats] and [getAdminStats].

    JavaScript numbers that the code only uses as integers (week and day
    counters, row counts, timestamps in milliseconds) are [Z].  Strings
    are [string]; the only string surgery of the code ([replace] of an
    underscore, [toLowerCase] of an ASCII enum name, [startsWith] and
    [slice] of an ASCII prefix) acts on ASCII bytes, which UTF-8 never
    reuses inside a longer sequence.  Third-party packages (jsonwebtoken,
    bcrypt, date-fns) are interfaces: type classes whose laws are the
    documented contract of the package. *)

From Equations Require Import Equations.
From stdpp Require Import base list strings gmap sorting pretty countable.
From Stdlib Require Import ZArith Lia Ascii.

Local Open Scope string_scope.
Local Open Scope list_scope.
Local Open Scope Z_scope.

(** ** JavaScript primitives used by the code *)

Module JS.

(** [for (let i = lo; i <= hi; i++) acc = body(i, acc)]. *)
Equations? for_upto {A : Type} (hi : Z) (body : Z → A → A) (i : Z) (acc : A)
  : A by wf (Z.to_nat (hi + 1 - i)) lt :=
  for_upto hi body i acc with Z_le_gt_dec i hi := {
    | left _ => for_upto hi body (i + 1) (body i acc)
    | right _ => acc }.
Proof. lia. Qed.

(** [Array.prototype.slice(start, end)]: negative indices count from the
    end, both bounds are clipped to the array. *)
Definition slice {A : Type} (l : list A) (start end_ : Z) : list A :=
  let len := Z.of_nat (length l) in
  let k := if start <? 0 then Z.max (len + start) 0 else Z.min start len in
  let final := if end_ <? 0 then Z.max (len + end_) 0 else Z.min end_ len in
  take (Z.to_nat (final - k)) (drop (Z.to_nat k) l).

(** [array.push(x)]. *)
Definition push {A : Type} (x : A) (l : list A) : list A := l ++ [x].

(** [String.prototype.replace(pat, by)] for a one-character pattern and a
    replacement without [$]: only the first occurrence is replaced. *)
Fixpoint replace (pat by_ : ascii) (s : string) : string :=
  match s with
  | EmptyString => EmptyString
  | String c s' =>
      if Ascii.eqb c pat then String by_ s' else String c (replace pat by_ s')
  end.

Definition lower_ascii (c : ascii) : ascii :=
  let n := nat_of_ascii c in
  if (andb (Nat.leb 65 n) (Nat.leb n 90)) then ascii_of_nat (n + 32) else c.

(** [String.prototype.toLowerCase] on ASCII text. *)
Fixpoint toLowerCase (s : string) : string :=
  match s with
  | EmptyString => EmptyString
  | String c s' => String (lower_ascii c) (toLowerCase s')
  end.

(** [String.prototype.startsWith]. *)
Definition startsWith (s p : string) : bool := String.prefix p s.

(** [s.slice(n)] for [0 <= n]. *)
Definition drop_chars (n : nat) (s : string) : string :=
  String.substring n (String.length s - n) s.

(** Truthiness of a string: only the empty string is falsy. *)
Definition truthy (s : string) : bool :=
  match s with EmptyString => false | _ => true end.

(** Number-to-string conversion of an integer, as a template literal
    does it (decimal digits, a leading minus sign); JavaScript switches
    to exponent notation from 10^21 on, which no request reaches. *)
Definition numberToString (n : Z) : string := pretty n.

(** Property names every object literal inherits from
    [Object.prototype]: a lookup [obj[key]] with such a key finds the
    inherited member when [obj] has no own property of that name. *)
Definition objectPrototypeKeys : list string :=
  [ "constructor"; "hasOwnProperty"; "isPrototypeOf";
    "propertyIsEnumerable"; "toLocaleString"; "toString"; "valueOf";
    "__proto__"; "__defineGetter__"; "__defineSetter__";
    "__lookupGetter__"; "__lookupSetter__" ].

(** What a read [obj[key]] of an object literal holding strings yields. *)
Inductive lookup_result :=
| Undefined
| Own (s : string)
| Inherited (key : string).

Definition get (obj : gmap string string) (key : string) : lookup_result :=
  match obj !! key with
  | Some s => Own s
  | None => if decide (key ∈ objectPrototypeKeys) then Inherited key
            else Undefined
  end.

(** The text V8 gives an inherited member inside a template literal:
    the members are built-in functions, except [__proto__], which is
    the prototype object itself. *)
Definition inheritedToString (key : string) : string :=
  if decide (key = "__proto__") then "[object Object]"
  else "function "
       +:+ (if decide (key = "constructor") then "Object" else key)
       +:+ "() { [native code] }".

(** [`${obj[key] || dflt}`]. *)
Definition get_or (obj : gmap string string) (key dflt : string) : string :=
  match get obj key with
  | Undefined => dflt
  | Own s => if truthy s then s else dflt
  | Inherited k => inheritedToString k
  end.

End JS.

(** ** Shared schema: plan bodies and generation requests *)

Inductive Level := BEGINNER | INTERMEDIATE | ADVANCED.

Definition Level_str (l : Level) : string :=
  match l with
  | BEGINNER => "BEGINNER"
  | INTERMEDIATE => "INTERMEDIATE"
  | ADVANCED => "ADVANCED"
  end.

Module PlanExercise.
Record t := mk {
  exerciseId : option string;
  name : string;
  sets : Z;
  reps : string;
  rest : Z;
  notes : option string }.
End PlanExercise.

Module PlanDay.
Record t := mk {
  dayNumber : Z;
  name : string;
  exercises : list PlanExercise.t;
  restDay : option bool }.
End PlanDay.

Module PlanWeek.
Record t := mk {
  weekNumber : Z;
  days : list PlanDay.t }.
End PlanWeek.

Module PlanData.
Record t := mk { weeks : list PlanWeek.t }.
End PlanData.

(** The request accepted by [generatePlanSchema].  The two counts are
    whole numbers here; the schema bounds them but does not ask for
    integers. *)
Module GeneratePlanData.
Record t := mk {
  goal : string;
  level : Level;
  frequencyPerWeek : Z;
  durationWeeks : Z;
  equipment : option (list string);
  timePerDay : option Z;
  injuries : option string }.

(** The range checks of the schema on the two loop bounds. *)
Definition valid (p : t) : Prop :=
  1 ≤ durationWeeks p ≤ 52 ∧ 1 ≤ frequencyPerWeek p ≤ 7.

(** The request [{ ...p, goal: g }]. *)
Definition withGoal (g : string) (p : t) : t :=
  mk g (level p) (frequencyPerWeek p) (durationWeeks p)
    (equipment p) (timePerDay p) (injuries p).
End GeneratePlanData.

Module GeneratedPlan.
Record t := mk {
  title : string;
  description : string;
  data : PlanData.t }.
End GeneratedPlan.

(** ** server/openai.ts *)

Module OpenAI.
Import GeneratePlanData.

Definition exercise (n : string) (r : string) (rst : Z) (nt : string)
  : PlanExercise.t :=
  PlanExercise.mk None n 3 r rst (Some nt).

Definition exercises : list PlanExercise.t :=
  [ exercise "Push-ups" "10-12" 60 "Keep core engaged";
    exercise "Squats" "12-15" 60 "Keep back straight";
    exercise "Plank" "30-60 sec" 45 "Hold position";
    exercise "Lunges" "10 each leg" 60 "Step forward";
    exercise "Mountain Climbers" "20" 45 "Fast pace";
    exercise "Burpees" "8-10" 90 "Full extension" ].

(** The entry pushed for day [d] of week [w]. *)
Definition planDay (params : t) (w d : Z) : PlanDay.t :=
  if d <=? frequencyPerWeek params then
    PlanDay.mk d
      (if Z.rem d 2 =? 1 then "Full Body Workout A"
       else "Full Body Workout B")
      (JS.slice exercises 0 (4 + Z.rem w 2))
      (Some false)
  else
    PlanDay.mk d "Rest Day" [] (Some true).

(** The inner loop: the seven entries of week [w]. *)
Definition planDays (params : t) (w : Z) : list PlanDay.t :=
  JS.for_upto 7 (λ d days, JS.push (planDay params w d) days) 1 [].

(** The outer loop. *)
Definition planWeeks (params : t) : list PlanWeek.t :=
  JS.for_upto (durationWeeks params)
    (λ w weeks, JS.push (PlanWeek.mk w (planDays params w)) weeks) 1 [].

Definition goalNames : gmap string string :=
  <["weight_loss" := "Fat Burn"]>
  (<["muscle_gain" := "Muscle Builder"]>
  (<["strength" := "Strength Training"]>
  (<["endurance" := "Endurance"]>
  (<["flexibility" := "Flexibility"]>
  (<["general_fitness" := "General Fitness"]> ∅))))).

Definition generateFallbackPlan (params : t) : GeneratedPlan.t :=
  let weeks := planWeeks params in
  GeneratedPlan.mk
    (JS.get_or goalNames (goal params) "Fitness" +:+ " "
       +:+ JS.numberToString (durationWeeks params) +:+ "-Week Plan")
    ("A " +:+ JS.toLowerCase (Level_str (level params)) +:+ " "
       +:+ JS.numberToString (durationWeeks params)
       +:+ "-week program focusing on "
       +:+ JS.replace "_" " " (goal params)
       +:+ ". Train " +:+ JS.numberToString (frequencyPerWeek params)
       +:+ " days per week.")
    (PlanData.mk weeks).

End OpenAI.

(** ** Exceptions

    A call either returns a value or throws; [try_catch] is
    [try { ... } catch { ... }]. *)

Inductive result (E A : Type) : Type :=
| Return (a : A)
| Throw (e : E).
Arguments Return {E A} a.
Arguments Throw {E A} e.

Definition bind {E A B : Type} (m : result E A) (k : A → result E B)
  : result E B :=
  match m with
  | Return a => k a
  | Throw e => Throw e
  end.

Definition try_catch {E A : Type} (body : result E A) (handler : E → result E A)
  : result E A :=
  match body with
  | Return a => Return a
  | Throw e => handler e
  end.

Notation "'let*' x ':=' m 'in' k" := (bind m (λ x, k))
  (at level 10, x name, m at level 100, k at level 200).

(** ** Users and token claims *)

(** The columns of [users] that the modelled code reads. *)
Module User.
Record t := mk {
  id : string;
  email : string;
  password : string;
  name : string;
  role : string }.
End User.

(** What the middleware stores in [req.user]. *)
Module AuthUser.
Record t := mk {
  id : string;
  email : string;
  role : string }.
End AuthUser.

(** ** The jsonwebtoken package *)

Module Jwt.

(** The object handed to [jwt.sign]. *)
Record claims := mkClaims {
  c_id : string;
  c_email : string;
  c_role : string }.

(** The object [jwt.verify] returns: the signed claims with the
    issued-at and expiry times (in seconds) the package adds. *)
Record payload := mkPayload {
  id : string;
  email : string;
  role : string;
  iat : Z;
  exp : Z }.

Inductive error :=
| TokenExpiredError
| JsonWebTokenError (message : string)
| NotBeforeError.

(** Seconds since the epoch of a clock reading in milliseconds. *)
Definition seconds (now : Z) : Z := now `div` 1000.

(** [sign c secret expiresIn now] and [verify token secret now]; [now]
    is the reading of [Date.now()] at the call, [expiresIn] is in
    seconds.  The laws are the contract of the package for one secret:
    a token verifies to its claims while the clock is before its
    expiry, and raises [TokenExpiredError] from then on. *)
Class Lib := {
  sign : claims → string → Z → Z → string;
  verify : string → string → Z → result error payload;
  verify_sign c k ttl now now' :
    seconds now' < seconds now + ttl →
    verify (sign c k ttl now) k now' =
      Return (mkPayload (c_id c) (c_email c) (c_role c)
                (seconds now) (seconds now + ttl));
  verify_expired c k ttl now now' :
    seconds now + ttl ≤ seconds now' →
    verify (sign c k ttl now) k now' = Throw TokenExpiredError }.

End Jwt.

(** ** The bcrypt package *)

Module Bcrypt.

(** [hash password rounds salt]: the package draws [salt] at random for
    each call.  The laws are the contract of [compare] and the format of
    a hash, a string of 60 characters. *)
Class Lib := {
  salt : Type;
  hash : string → Z → salt → string;
  compare : string → string → bool;
  compare_hash password rounds s :
    compare password (hash password rounds s) = true;
  hash_length password rounds s :
    String.length (hash password rounds s) = 60%nat }.

End Bcrypt.

(** ** server/auth.ts *)

Module Auth.

Definition SALT_ROUNDS : Z := 10.

(** The value of [expiresIn: "7d"] in seconds. *)
Definition expiresIn_7d : Z := 7 * 24 * 60 * 60.

Module Request.
Record t := mk {
  authorization : option string;
  user : option AuthUser.t }.
End Request.

(** How a middleware ends: it sends a JSON response with a status, or
    hands the (updated) request to [next()]. *)
Inductive outcome :=
| Responded (status : Z) (message : string)
| Next (req : Request.t).

Section auth.
Context `{Jwt.Lib} `{Bcrypt.Lib}.
(** [process.env.SESSION_SECRET] *)
Variable SESSION_SECRET : option string.

Definition JWT_SECRET : string :=
  match SESSION_SECRET with
  | Some s => if JS.truthy s then s else "fitstack-secret-key"
  | None => "fitstack-secret-key"
  end.

Definition hashPassword (password : string) (s : Bcrypt.salt) : string :=
  Bcrypt.hash password SALT_ROUNDS s.

Definition comparePassword (password hash : string) : bool :=
  Bcrypt.compare password hash.

Definition generateToken (user : User.t) (now : Z) : string :=
  Jwt.sign
    (Jwt.mkClaims (User.id user) (User.email user) (User.role user))
    JWT_SECRET expiresIn_7d now.

Definition verifyToken (token : string) (now : Z)
  : result Jwt.error (option Jwt.payload) :=
  try_catch
    (let* decoded := Jwt.verify token JWT_SECRET now in
     Return (Some decoded))
    (λ _, Return None).

Definition requireAuth (req : Request.t) (now : Z)
  : result Jwt.error outcome :=
  match Request.authorization req with
  | None => Return (Responded 401 "Authentication required")
  | Some authHeader =>
      if negb (JS.truthy authHeader)
         || negb (JS.startsWith authHeader "Bearer ")
      then Return (Responded 401 "Authentication required")
      else
        let token := JS.drop_chars 7 authHeader in
        let* decoded := verifyToken token now in
        match decoded with
        | None => Return (Responded 401 "Invalid or expired token")
        | Some decoded =>
            Return (Next (Request.mk (Request.authorization req)
                            (Some (AuthUser.mk (Jwt.id decoded)
                                     (Jwt.email decoded)
                                     (Jwt.role decoded)))))
        end
  end.

Definition requireAdmin (req : Request.t) : outcome :=
  match Request.user req with
  | Some u =>
      if decide (AuthUser.role u = "ADMIN") then Next req
      else Responded 403 "Admin access required"
  | None => Responded 403 "Admin access required"
  end.

End auth.

End Auth.

(** ** Shared schema: tables *)

Inductive PlanStatus := CREATING | ACTIVE | PAUSED | COMPLETED.

Global Instance PlanStatus_eq_dec : EqDecision PlanStatus.
Proof. solve_decision. Defined.

(** Timestamps are milliseconds since the epoch. *)
Module Plan.
Record t := mk {
  id : string;
  userId : string;
  title : string;
  description : option string;
  goal : string;
  level : Level;
  frequencyPerWeek : Z;
  durationWeeks : Z;
  data : option PlanData.t;
  generatedByAI : bool;
  status : PlanStatus;
  disclaimer : option string;
  createdAt : Z;
  updatedAt : Z }.
End Plan.

(** The JSON column [exercises] is left out: no modelled query reads it. *)
Module WorkoutSession.
Record t := mk {
  id : string;
  userId : string;
  planId : option string;
  date : Z;
  duration : option Z;
  caloriesBurned : option Z;
  notes : option string;
  completed : bool;
  createdAt : Z }.
End WorkoutSession.

(** The JSON column [measurements] is left out likewise.  [real] is the
    type of the values of a [real] column. *)
Module Progress.
Record t {real : Type} := mk {
  id : string;
  userId : string;
  date : Z;
  weightKg : option real;
  bodyFatPct : option real;
  photoUrl : option string;
  notes : option string;
  createdAt : Z }.
Arguments t : clear implicits.
Arguments mk {real}.
End Progress.

(** ** server/storage.ts *)

Module Storage.

(** The part of an SQL engine the queries rely on: [ORDER BY] returns
    the rows it is given, sorted on the column; the order among rows
    with equal keys is the engine's choice. *)
Class Engine := {
  orderBy : ∀ {A : Type}, (A → Z) → list A → list A;
  orderByDesc : ∀ {A : Type}, (A → Z) → list A → list A;
  orderBy_sorted {A} (key : A → Z) (l : list A) :
    StronglySorted (λ a b, key a ≤ key b) (orderBy key l);
  orderBy_perm {A} (key : A → Z) (l : list A) : orderBy key l ≡ₚ l;
  orderByDesc_sorted {A} (key : A → Z) (l : list A) :
    StronglySorted (λ a b, key b ≤ key a) (orderByDesc key l);
  orderByDesc_perm {A} (key : A → Z) (l : list A) :
    orderByDesc key l ≡ₚ l }.

(** The date-fns functions and [Date.prototype.toISOString], on
    timestamps in milliseconds.  [startOfWeek] and [endOfWeek] are
    taken with [weekStartsOn: 1]. *)
Class DateLib := {
  subDays : Z → Z → Z;
  startOfWeek : Z → Z;
  endOfWeek : Z → Z;
  toISOString : Z → string }.

(** The database: one list of rows per table. *)
Record DB {real : Type} := mkDB {
  users : list User.t;
  plans : list Plan.t;
  workoutSessions : list WorkoutSession.t;
  progress : list (Progress.t real) }.
Arguments DB : clear implicits.
Arguments mkDB {real}.

(** An element of the array [getProgressChart] returns; [weight] is the
    selected column, a number or [null]. *)
Module ChartPoint.
Record t {real : Type} := mk {
  date : string;
  weight : option real }.
Arguments t : clear implicits.
Arguments mk {real}.
End ChartPoint.

Module UserStats.
Record t := mk {
  totalWorkouts : Z;
  thisWeek : Z;
  streak : Z;
  caloriesBurned : Z }.
End UserStats.

Module AdminStats.
Record t := mk {
  totalUsers : Z;
  totalPlans : Z;
  totalWorkouts : Z;
  averageWorkoutsPerWeek : Z }.
End AdminStats.

(** The row count of a [select({ count: count() })] query. *)
Definition count {A : Type} (rows : list A) : Z := Z.of_nat (length rows).

(** [COALESCE(SUM(col), 0)]: [SUM] skips the null values. *)
Definition coalesce_sum (col : list (option Z)) : Z :=
  foldr (λ v acc, default 0 v + acc) 0 col.

Section storage.
Context `{Engine} `{DateLib} {real : Type}.
Variable db : DB real.

Definition getActivePlanByUserId (userId : string) : option Plan.t :=
  head (take 1
    (orderByDesc Plan.createdAt
       (filter (λ p, Plan.userId p = userId ∧ Plan.status p = ACTIVE)
               (plans db)))).

(** [now] is the reading of [new Date()]. *)
Definition getWorkoutsThisWeek (now : Z) (userId : string) : Z :=
  let weekStart := startOfWeek now in
  let weekEnd := endOfWeek now in
  count
    (filter (λ s, WorkoutSession.userId s = userId
                  ∧ weekStart ≤ WorkoutSession.date s
                  ∧ WorkoutSession.date s ≤ weekEnd)
            (workoutSessions db)).

Definition getProgressChart (now : Z) (userId : string) (days : Z)
  : list (ChartPoint.t real) :=
  let startDate := subDays now days in
  let entries :=
    map (λ r, (Progress.date r, Progress.weightKg r))
      (orderBy Progress.date
         (filter (λ r, Progress.userId r = userId
                       ∧ startDate ≤ Progress.date r)
                 (progress db))) in
  map (λ e, ChartPoint.mk (toISOString (fst e)) (snd e))
    (filter (λ e, snd e ≠ None) entries).

Definition getUserStats (now : Z) (userId : string) : UserStats.t :=
  let totalResult :=
    count (filter (λ s, WorkoutSession.userId s = userId)
                  (workoutSessions db)) in
  let thisWeek := getWorkoutsThisWeek now userId in
  let caloriesResult :=
    coalesce_sum
      (map WorkoutSession.caloriesBurned
         (filter (λ s, WorkoutSession.userId s = userId)
                 (workoutSessions db))) in
  UserStats.mk totalResult thisWeek 0 caloriesResult.

Definition getAdminStats : AdminStats.t :=
  AdminStats.mk (count (users db)) (count (plans db))
    (count (workoutSessions db)) 0.

End storage.

End Storage.

(** ** Reference implementations of the interfaces

    Small executable instances: a merge sort as the engine's [ORDER BY],
    the date functions in UTC, and a token format that stores the claims,
    the secret and the times in the clear.  They show that the laws of
    the interfaces can be met and let the queries run on examples. *)

Module Reference.

Definition le_on {A : Type} (key : A → Z) : relation A :=
  λ a b, key a ≤ key b.

Definition ge_on {A : Type} (key : A → Z) : relation A :=
  λ a b, key b ≤ key a.

Global Instance le_on_dec {A} (key : A → Z) : RelDecision (le_on key).
Proof. intros a b. unfold le_on. apply _. Defined.

Global Instance ge_on_dec {A} (key : A → Z) : RelDecision (ge_on key).
Proof. intros a b. unfold ge_on. apply _. Defined.

Definition sortAsc {A : Type} (key : A → Z) : list A → list A :=
  merge_sort (le_on key).

Definition sortDesc {A : Type} (key : A → Z) : list A → list A :=
  merge_sort (ge_on key).

Definition dayMs : Z := 86400000.

Definition subDaysUTC (date amount : Z) : Z := date - amount * dayMs.

(** 1 January 1970 was a Thursday; weeks start on Monday. *)
Definition startOfWeekUTC (date : Z) : Z :=
  let day := date `div` dayMs in
  (day - (day + 3) `mod` 7) * dayMs.

Definition endOfWeekUTC (date : Z) : Z := startOfWeekUTC date + 7 * dayMs - 1.

Definition pad (width : nat) (n : Z) : string :=
  let digits := pretty n in
  String.concat "" (replicate (width - String.length digits) "0") +:+ digits.

(** Year, month and day of a day count since the epoch (proleptic
    Gregorian calendar). *)
Definition civil (days : Z) : Z * Z * Z :=
  let z := days + 719468 in
  let era := z `div` 146097 in
  let doe := z `mod` 146097 in
  let yoe :=
    (doe - doe `div` 1460 + doe `div` 36524 - doe `div` 146096) `div` 365 in
  let doy := doe - (365 * yoe + yoe `div` 4 - yoe `div` 100) in
  let mp := (5 * doy + 2) `div` 153 in
  let d := doy - (153 * mp + 2) `div` 5 + 1 in
  let m := if mp <? 10 then mp + 3 else mp - 9 in
  (yoe + era * 400 + (if m <=? 2 then 1 else 0), m, d).

(** [toISOString] for the years 0 to 9999. *)
Definition toISOStringUTC (date : Z) : string :=
  let '(y, m, d) := civil (date `div` dayMs) in
  let t := date `mod` dayMs in
  pad 4 y +:+ "-" +:+ pad 2 m +:+ "-" +:+ pad 2 d +:+ "T"
    +:+ pad 2 (t `div` 3600000) +:+ ":"
    +:+ pad 2 ((t `div` 60000) `mod` 60) +:+ ":"
    +:+ pad 2 ((t `div` 1000) `mod` 60) +:+ "."
    +:+ pad 3 (t `mod` 1000) +:+ "Z".

(** A positive number written in binary, lowest bit first, and read
    back. *)
Fixpoint bits_of_pos (p : positive) : string :=
  match p with
  | xH => ""
  | xO p' => String "0" (bits_of_pos p')
  | xI p' => String "1" (bits_of_pos p')
  end.

Fixpoint pos_of_bits (s : string) : option positive :=
  match s with
  | EmptyString => Some xH
  | String c s' =>
      if Ascii.eqb c "0" then xO <$> pos_of_bits s'
      else if Ascii.eqb c "1" then xI <$> pos_of_bits s'
      else None
  end.

(** The token lists the claims, the secret, the issue time and the
    lifetime. *)
Definition token_fields : Type := string * string * string * string * Z * Z.

Definition signClear (c : Jwt.claims) (secret : string) (ttl now : Z)
  : string :=
  bits_of_pos
    (encode (A := token_fields)
       (Jwt.c_id c, Jwt.c_email c, Jwt.c_role c, secret,
        Jwt.seconds now, ttl)).

Definition verifyClear (token secret : string) (now : Z)
  : result Jwt.error Jwt.payload :=
  match pos_of_bits token ≫= decode (A := token_fields) with
  | Some (i, e, r, k, iat, ttl) =>
      if decide (k = secret) then
        if Jwt.seconds now <? iat + ttl
        then Return (Jwt.mkPayload i e r iat (iat + ttl))
        else Throw Jwt.TokenExpiredError
      else Throw (Jwt.JsonWebTokenError "invalid signature")
  | None => Throw (Jwt.JsonWebTokenError "jwt malformed")
  end.

(** A package that meets the contract of bcrypt by format only: it keeps
    a password of 60 characters as its own hash. *)
Definition sixty : string :=
  "$2b$10$xxxxxxxxxxxxxxxxxxxxxxxxxxxxxxxxxxxxxxxxxxxxxxxxxxxxx".

Definition hashKeep (password : string) (rounds : Z) (s : unit) : string :=
  if decide (String.length password = 60%nat) then password else sixty.

Definition compareKeep (password hash : string) : bool :=
  String.eqb (hashKeep password 0 tt) hash.

End Reference.

(** Example data for the statements below. *)
Module Examples.

(** The request of the specification's example. *)
Definition request : GeneratePlanData.t :=
  GeneratePlanData.mk "weight_loss" BEGINNER 3 4 None None None.

(** Week 1 of the plan for that request, and its first two days. *)
Definition week1 : PlanWeek.t :=
  PlanWeek.mk 1 (map (OpenAI.planDay request 1) (seqZ 1 7)).

Definition day1 : PlanDay.t := OpenAI.planDay request 1 1.

Definition day2 : PlanDay.t := OpenAI.planDay request 1 2.

Definition alice : User.t :=
  User.mk "u1" "alice@example.com" "$2b$10$stored" "Alice" "USER".

Definition plan (i u : string) (s : PlanStatus) (created : Z) : Plan.t :=
  Plan.mk i u "Plan" None "strength" BEGINNER 3 4 None false s None
    created created.

Definition entry (i u : string) (date : Z) (w : option Z) : Progress.t Z :=
  Progress.mk i u date w None None None date.

(** Weights are whole kilograms here. *)
Definition db : Storage.DB Z :=
  Storage.mkDB [alice]
    [ plan "p1" "u1" ACTIVE 1000;
      plan "p2" "u1" ACTIVE 3000;
      plan "p3" "u1" PAUSED 5000;
      plan "p4" "u2" ACTIVE 7000 ]
    []
    [ entry "e1" "u1" 1700000300000 (Some 71);
      entry "e2" "u1" 1700000100000 None;
      entry "e3" "u2" 1700000200000 (Some 80);
      entry "e4" "u1" 1700000000000 (Some 72);
      entry "e5" "u1" 1600000000000 (Some 75) ].

End Examples.

(** ** Notions used in the statements *)

Import OpenAI.

(** A day entry is active when it carries [restDay: false]. *)
Definition active (d : PlanDay.t) : Prop := PlanDay.restDay d = Some false.

Global Instance active_dec d : Decision (active d).
Proof. unfold active. apply _. Defined.

Definition fallbackWeeks (params : GeneratePlanData.t) : list PlanWeek.t :=
  PlanData.weeks (GeneratedPlan.data (generateFallbackPlan params)).

(** The reading of C3: two consecutive active days of a week carry
    different exercise lists. *)
Definition consecutive_days_differ (params : GeneratePlanData.t) : Prop :=
  ∀ wk d1 d2,
    wk ∈ fallbackWeeks params →
    d1 ∈ PlanWeek.days wk → d2 ∈ PlanWeek.days wk →
    active d1 → active d2 →
    PlanDay.dayNumber d2 = PlanDay.dayNumber d1 + 1 →
    PlanDay.exercises d1 ≠ PlanDay.exercises d2.

(** The name the table gives a goal, "Fitness" when it has none. *)
Definition goalName (goal : string) : string :=
  default "Fitness" (goalNames !! goal).

(** The reading of C8 for one of the two texts: it is determined by the
    looked-up name of the goal and the other fields of the request. *)
Definition derived_from_goalNames (field : GeneratedPlan.t → string) : Prop :=
  ∀ g1 g2 p,
    goalName g1 = goalName g2 →
    field (generateFallbackPlan (GeneratePlanData.withGoal g1 p)) =
    field (generateFallbackPlan (GeneratePlanData.withGoal g2 p)).

(** The rows behind a chart: those of the user, dated from the start
    date on, with a weight, in the order of the engine. *)
Definition chartRows `{Storage.Engine} `{Storage.DateLib} {real : Type}
    (db : Storage.DB real) (now : Z) (userId : string) (days : Z)
  : list (Progress.t real) :=
  filter (λ r, Progress.weightKg r ≠ None)
    (Storage.orderBy Progress.date
       (filter (λ r, Progress.userId r = userId
                     ∧ Storage.subDays now days ≤ Progress.date r)
               (Storage.progress db))).

(** ** Further code of the server *)

(** *** server/auth.ts, continued *)

Module AuthMore.

Section auth.
Context `{Jwt.Lib}.
(** [process.env.SESSION_SECRET] *)
Variable SESSION_SECRET : option string.

Definition optionalAuth (req : Auth.Request.t) (now : Z)
  : result Jwt.error Auth.outcome :=
  match Auth.Request.authorization req with
  | Some authHeader =>
      if JS.truthy authHeader && JS.startsWith authHeader "Bearer " then
        let token := JS.drop_chars 7 authHeader in
        let* decoded := Auth.verifyToken SESSION_SECRET token now in
        match decoded with
        | Some decoded =>
            Return (Auth.Next
                      (Auth.Request.mk (Auth.Request.authorization req)
                         (Some (AuthUser.mk (Jwt.id decoded)
                                  (Jwt.email decoded) (Jwt.role decoded)))))
        | None => Return (Auth.Next req)
        end
      else Return (Auth.Next req)
  | None => Return (Auth.Next req)
  end.

(** The chain [requireAuth, requireAdmin] in front of the handlers of the
    admin routes: the request as the handler receives it, or the response
    of the middleware that stopped it. *)
Definition requireAuthThenAdmin (req : Auth.Request.t) (now : Z)
  : result Jwt.error Auth.outcome :=
  let* o := Auth.requireAuth SESSION_SECRET req now in
  match o with
  | Auth.Next req' => Return (Auth.requireAdmin req')
  | Auth.Responded status message => Return (Auth.Responded status message)
  end.

End auth.

End AuthMore.

(** The request with the user of decoded claims attached. *)
Definition attach (req : Auth.Request.t) (p : Jwt.payload) : Auth.Request.t :=
  Auth.Request.mk (Auth.Request.authorization req)
    (Some (AuthUser.mk (Jwt.id p) (Jwt.email p) (Jwt.role p))).

(** *** server/storage.ts, continued

    Reads and writes on the four tables of [Storage.DB].  The database
    enforces what the schema declares: primary keys, the unique e-mail,
    the foreign keys of [plans.user_id] and [workout_sessions.plan_id]
    (the latter set to null when its plan is deleted).  The tables
    [exercises], [uploads] and [ai_jobs] are outside [Storage.DB], and
    with them the cascade that removes the jobs of a deleted plan.  An
    insert gets its id and its creation time from the database; they are
    arguments here. *)

Module StorageMore.

Inductive DbError :=
| UniqueViolation (constraint : string)
| ForeignKeyViolation (constraint : string)
| NegativeLimit.

Inductive Role := USER | COACH | ADMIN.

Definition Role_str (r : Role) : string :=
  match r with USER => "USER" | COACH => "COACH" | ADMIN => "ADMIN" end.

Definition PlanStatus_str (s : PlanStatus) : string :=
  match s with
  | CREATING => "CREATING"
  | ACTIVE => "ACTIVE"
  | PAUSED => "PAUSED"
  | COMPLETED => "COMPLETED"
  end.

(** [InsertUser], on the columns of [User.t]; [role] has a default. *)
Module InsertUser.
Record t := mk {
  email : string;
  password : string;
  name : string;
  role : option Role }.
End InsertUser.

(** [InsertPlan]: nullable columns and columns with a default may be
    left out. *)
Module InsertPlan.
Record t := mk {
  userId : string;
  title : string;
  description : option string;
  goal : string;
  level : Level;
  frequencyPerWeek : Z;
  durationWeeks : Z;
  data : option PlanData.t;
  generatedByAI : option bool;
  status : option PlanStatus;
  disclaimer : option string }.
End InsertPlan.

(** [Partial<InsertPlan>]: [None] leaves a column as it is; for a
    nullable column [Some None] stores null. *)
Module PlanPatch.
Record t := mk {
  userId : option string;
  title : option string;
  description : option (option string);
  goal : option string;
  level : option Level;
  frequencyPerWeek : option Z;
  durationWeeks : option Z;
  data : option (option PlanData.t);
  generatedByAI : option bool;
  status : option PlanStatus;
  disclaimer : option (option string) }.

Definition empty : t :=
  mk None None None None None None None None None None None.
End PlanPatch.

(** The row [{ ...data, updatedAt: now }] writes over [p]. *)
Definition patchPlan (patch : PlanPatch.t) (now : Z) (p : Plan.t) : Plan.t :=
  Plan.mk (Plan.id p)
    (default (Plan.userId p) (PlanPatch.userId patch))
    (default (Plan.title p) (PlanPatch.title patch))
    (default (Plan.description p) (PlanPatch.description patch))
    (default (Plan.goal p) (PlanPatch.goal patch))
    (default (Plan.level p) (PlanPatch.level patch))
    (default (Plan.frequencyPerWeek p) (PlanPatch.frequencyPerWeek patch))
    (default (Plan.durationWeeks p) (PlanPatch.durationWeeks patch))
    (default (Plan.data p) (PlanPatch.data patch))
    (default (Plan.generatedByAI p) (PlanPatch.generatedByAI patch))
    (default (Plan.status p) (PlanPatch.status patch))
    (default (Plan.disclaimer p) (PlanPatch.disclaimer patch))
    (Plan.createdAt p)
    now.

Definition userIds {real} (db : Storage.DB real) : list string :=
  map User.id (Storage.users db).

Definition planIds {real} (db : Storage.DB real) : list string :=
  map Plan.id (Storage.plans db).

Section storage.
Context `{Storage.Engine} {real : Type}.
Variable db : Storage.DB real.

Definition getUserById (id : string) : option User.t :=
  head (filter (λ u, User.id u = id) (Storage.users db)).

Definition getUserByEmail (email : string) : option User.t :=
  head (filter (λ u, User.email u = email) (Storage.users db)).

Definition createUser (newId : string) (data : InsertUser.t)
  : result DbError (Storage.DB real * User.t) :=
  if decide (newId ∈ userIds db) then Throw (UniqueViolation "users_pkey")
  else if decide (InsertUser.email data ∈ map User.email (Storage.users db))
  then Throw (UniqueViolation "users_email_unique")
  else
    let user :=
      User.mk newId (InsertUser.email data) (InsertUser.password data)
        (InsertUser.name data)
        (Role_str (default USER (InsertUser.role data))) in
    Return (Storage.mkDB (Storage.users db ++ [user]) (Storage.plans db)
              (Storage.workoutSessions db) (Storage.progress db),
            user).

Definition getPlansByUserId (userId : string) : list Plan.t :=
  Storage.orderByDesc Plan.createdAt
    (filter (λ p, Plan.userId p = userId) (Storage.plans db)).

Definition getPlanById (id : string) : option Plan.t :=
  head (filter (λ p, Plan.id p = id) (Storage.plans db)).

Definition createPlan (newId : string) (now : Z) (data : InsertPlan.t)
  : result DbError (Storage.DB real * Plan.t) :=
  if decide (newId ∈ planIds db) then Throw (UniqueViolation "plans_pkey")
  else if decide (InsertPlan.userId data ∈ userIds db) then
    let plan :=
      Plan.mk newId (InsertPlan.userId data) (InsertPlan.title data)
        (InsertPlan.description data) (InsertPlan.goal data)
        (InsertPlan.level data) (InsertPlan.frequencyPerWeek data)
        (InsertPlan.durationWeeks data) (InsertPlan.data data)
        (default false (InsertPlan.generatedByAI data))
        (default ACTIVE (InsertPlan.status data))
        (InsertPlan.disclaimer data) now now in
    Return (Storage.mkDB (Storage.users db) (Storage.plans db ++ [plan])
              (Storage.workoutSessions db) (Storage.progress db),
            plan)
  else Throw (ForeignKeyViolation "plans_user_id_users_id_fk").

(** [now] is the reading of [new Date()].  The foreign key is checked
    for a row whose [user_id] changes. *)
Definition updatePlan (id : string) (now : Z) (patch : PlanPatch.t)
  : result DbError (Storage.DB real * option Plan.t) :=
  match filter (λ p, Plan.id p = id) (Storage.plans db) with
  | [] => Return (db, None)
  | hit :: hits =>
      if decide (Forall (λ p, Plan.userId (patchPlan patch now p)
                                = Plan.userId p
                              ∨ Plan.userId (patchPlan patch now p)
                                ∈ userIds db)
                        (hit :: hits))
      then
        Return
          (Storage.mkDB (Storage.users db)
             (map (λ p, if decide (Plan.id p = id)
                        then patchPlan patch now p else p)
                  (Storage.plans db))
             (Storage.workoutSessions db) (Storage.progress db),
           Some (patchPlan patch now hit))
      else Throw (ForeignKeyViolation "plans_user_id_users_id_fk")
  end.

(** The sessions of a deleted plan keep their rows and lose the
    reference. *)
Definition detach (id : string) (s : WorkoutSession.t) : WorkoutSession.t :=
  if decide (WorkoutSession.planId s = Some id) then
    WorkoutSession.mk (WorkoutSession.id s) (WorkoutSession.userId s) None
      (WorkoutSession.date s) (WorkoutSession.duration s)
      (WorkoutSession.caloriesBurned s) (WorkoutSession.notes s)
      (WorkoutSession.completed s) (WorkoutSession.createdAt s)
  else s.

Definition deletePlan (id : string) : Storage.DB real :=
  match filter (λ p, Plan.id p = id) (Storage.plans db) with
  | [] => db
  | _ :: _ =>
      Storage.mkDB (Storage.users db)
        (filter (λ p, Plan.id p ≠ id) (Storage.plans db))
        (map (detach id) (Storage.workoutSessions db))
        (Storage.progress db)
  end.

Definition getWorkoutsByUserId (userId : string) : list WorkoutSession.t :=
  Storage.orderByDesc WorkoutSession.date
    (filter (λ s, WorkoutSession.userId s = userId)
            (Storage.workoutSessions db)).

(** A negative [LIMIT] is an error of the database. *)
Definition getRecentWorkouts (userId : string) (limit : Z)
  : result DbError (list WorkoutSession.t) :=
  if limit <? 0 then Throw NegativeLimit
  else
    Return
      (take (Z.to_nat limit)
         (Storage.orderByDesc WorkoutSession.date
            (filter (λ s, WorkoutSession.userId s = userId)
                    (Storage.workoutSessions db)))).

Definition getProgressByUserId (userId : string) : list (Progress.t real) :=
  Storage.orderByDesc Progress.date
    (filter (λ r, Progress.userId r = userId) (Storage.progress db)).

End storage.

(** What the constraints on users, plans and the plan of a session
    guarantee of a database state. *)
Definition consistent {real} (db : Storage.DB real) : Prop :=
  NoDup (userIds db) ∧
  NoDup (map User.email (Storage.users db)) ∧
  NoDup (planIds db) ∧
  Forall (λ p, Plan.userId p ∈ userIds db) (Storage.plans db) ∧
  Forall (λ s, ∀ i, WorkoutSession.planId s = Some i → i ∈ planIds db)
         (Storage.workoutSessions db).

End StorageMore.

(** *** server/openai.ts, continued *)

Module OpenAIMore.

(** What [JSON.parse] makes of the reply: null, or a value whose
    properties [title], [description] and [weeks] are read.  A property
    that is absent or null is [None]; a number, a string or a boolean has
    none of the three.  Properties that are present are taken to be of
    the declared types. *)
Inductive reply :=
| JsonNull
| JsonValue (title description : option string)
            (weeks : option (list PlanWeek.t)).

(** [JSON.parse]: the reply, or a SyntaxError. *)
Class Json := { parse : string → option reply }.

(** [s || dflt] for a string that may be undefined. *)
Definition or_else (s : option string) (dflt : string) : string :=
  match s with
  | Some s => if JS.truthy s then s else dflt
  | None => dflt
  end.

Section openai.
Context `{Json}.
(** [process.env.OPENAI_API_KEY] *)
Variable OPENAI_API_KEY : option string.

(** Whether the client [openai] was created. *)
Definition configured : bool :=
  match OPENAI_API_KEY with
  | Some key => JS.truthy key
  | None => false
  end.

(** [completion] is the outcome of [openai.chat.completions.create]: an
    error of the call, or [choices[0]?.message?.content].  The result is
    the plan or the message of the Error thrown. *)
Definition generateWorkoutPlan (params : GeneratePlanData.t)
    (completion : result string (option string))
  : result string GeneratedPlan.t :=
  if negb configured then Throw "OpenAI API key not configured"
  else
    try_catch
      (let* content := completion in
       match content with
       | None => Throw "No content in OpenAI response"
       | Some content =>
           if negb (JS.truthy content)
           then Throw "No content in OpenAI response"
           else
             match parse content with
             | None => Throw "SyntaxError"
             | Some JsonNull => Throw "TypeError"
             | Some (JsonValue title description weeks) =>
                 Return
                   (GeneratedPlan.mk
                      (or_else title
                         (GeneratePlanData.goal params +:+ " Plan"))
                      (or_else description
                         ("A "
                          +:+ JS.numberToString
                                (GeneratePlanData.durationWeeks params)
                          +:+ "-week "
                          +:+ JS.toLowerCase
                                (Level_str (GeneratePlanData.level params))
                          +:+ " " +:+ GeneratePlanData.goal params
                          +:+ " program"))
                      (PlanData.mk (default [] weeks)))
             end
       end)
      (λ _, Throw "Failed to generate workout plan").

End openai.

End OpenAIMore.

(** *** server/routes.ts

    A handler is a function of the database, of what the request
    carries and of what the environment supplies (clock, salt, new id,
    reply of the external service); it gives the database it leaves
    behind and the response it sends.  [parsed] is the outcome of a
    schema's [parse]: the validated data, or a ZodError with the message
    of its first issue. *)

Module Routes.

Inductive parsed (A : Type) : Type :=
| Valid (a : A)
| Invalid (firstMessage : option string).
Arguments Valid {A} a.
Arguments Invalid {A} firstMessage.

Module SignupData.
Record t := mk {
  email : string;
  password : string;
  name : string }.
End SignupData.

Module LoginData.
Record t := mk {
  email : string;
  password : string }.
End LoginData.

(** A user without the password: [const { password: _, ...safeUser }]. *)
Module SafeUser.
Record t := mk {
  id : string;
  email : string;
  name : string;
  role : string }.
End SafeUser.

Definition safeUser (user : User.t) : SafeUser.t :=
  SafeUser.mk (User.id user) (User.email user) (User.name user)
    (User.role user).

Inductive body :=
| Message (message : string)
| UserToken (user : SafeUser.t) (token : string)
| PlanBody (plan : Plan.t)
| NoBody.

Record response := Response {
  status : Z;
  payload : body }.

(** [error.errors[0]?.message || "Validation error"] *)
Definition validationError (firstMessage : option string) : response :=
  Response 400 (Message (OpenAIMore.or_else firstMessage "Validation error")).

Definition disclaimer : string :=
  "This plan is algorithmically generated and not medical advice. Consult a healthcare professional before starting any new exercise program.".

Section routes.
Context `{Jwt.Lib} `{Bcrypt.Lib} `{OpenAIMore.Json} {real : Type}.
Variable SESSION_SECRET : option string.
Variable OPENAI_API_KEY : option string.

(** POST /api/auth/signup *)
Definition signup (db : Storage.DB real) (body : parsed SignupData.t)
    (salt : Bcrypt.salt) (newId : string) (now : Z)
  : Storage.DB real * response :=
  match body with
  | Invalid firstMessage => (db, validationError firstMessage)
  | Valid data =>
      match StorageMore.getUserByEmail db (SignupData.email data) with
      | Some _ => (db, Response 400 (Message "Email already in use"))
      | None =>
          let hashedPassword :=
            Auth.hashPassword (SignupData.password data) salt in
          match StorageMore.createUser db newId
                  (StorageMore.InsertUser.mk (SignupData.email data)
                     hashedPassword (SignupData.name data)
                     (Some StorageMore.USER)) with
          | Throw _ => (db, Response 500 (Message "Failed to create account"))
          | Return (db', user) =>
              let token := Auth.generateToken SESSION_SECRET user now in
              (db', Response 201 (UserToken (safeUser user) token))
          end
      end
  end.

(** POST /api/auth/login.  The update of [last_login] touches no column
    of [User.t]. *)
Definition login (db : Storage.DB real) (body : parsed LoginData.t) (now : Z)
  : Storage.DB real * response :=
  match body with
  | Invalid firstMessage => (db, validationError firstMessage)
  | Valid data =>
      match StorageMore.getUserByEmail db (LoginData.email data) with
      | None => (db, Response 401 (Message "Invalid email or password"))
      | Some user =>
          if Auth.comparePassword (LoginData.password data)
               (User.password user)
          then
            let token := Auth.generateToken SESSION_SECRET user now in
            (db, Response 200 (UserToken (safeUser user) token))
          else (db, Response 401 (Message "Invalid email or password"))
      end
  end.

(** The ownership check of the plan routes:
    [plan.userId !== req.user!.id && req.user!.role !== "ADMIN"]. *)
Definition denied (plan : Plan.t) (user : AuthUser.t) : bool :=
  negb (bool_decide (Plan.userId plan = AuthUser.id user))
  && negb (bool_decide (AuthUser.role user = "ADMIN")).

(** GET /api/plans/:id, behind [requireAuth]. *)
Definition getPlan (db : Storage.DB real) (user : AuthUser.t) (id : string)
  : response :=
  match StorageMore.getPlanById db id with
  | None => Response 404 (Message "Plan not found")
  | Some plan =>
      if denied plan user then Response 403 (Message "Access denied")
      else Response 200 (PlanBody plan)
  end.

(** DELETE /api/plans/:id, behind [requireAuth]. *)
Definition deletePlan (db : Storage.DB real) (user : AuthUser.t) (id : string)
  : Storage.DB real * response :=
  match StorageMore.getPlanById db id with
  | None => (db, Response 404 (Message "Plan not found"))
  | Some plan =>
      if denied plan user then (db, Response 403 (Message "Access denied"))
      else (StorageMore.deletePlan db id, Response 204 NoBody)
  end.

(** What POST /api/plans/generate stores: the plan of the external
    service when a key is set and the call succeeds, the fallback plan
    otherwise. *)
Definition planData (params : GeneratePlanData.t)
    (completion : result string (option string)) : GeneratedPlan.t :=
  if OpenAIMore.configured OPENAI_API_KEY then
    match OpenAIMore.generateWorkoutPlan OPENAI_API_KEY params completion with
    | Return plan => plan
    | Throw _ => OpenAI.generateFallbackPlan params
    end
  else OpenAI.generateFallbackPlan params.

(** POST /api/plans/generate, behind [requireAuth]. *)
Definition generate (db : Storage.DB real) (user : AuthUser.t)
    (body : parsed GeneratePlanData.t)
    (completion : result string (option string)) (newId : string) (now : Z)
  : Storage.DB real * response :=
  match body with
  | Invalid firstMessage => (db, validationError firstMessage)
  | Valid params =>
      let plan := planData params completion in
      match StorageMore.createPlan db newId now
              (StorageMore.InsertPlan.mk (AuthUser.id user)
                 (GeneratedPlan.title plan)
                 (Some (GeneratedPlan.description plan))
                 (GeneratePlanData.goal params)
                 (GeneratePlanData.level params)
                 (GeneratePlanData.frequencyPerWeek params)
                 (GeneratePlanData.durationWeeks params)
                 (Some (GeneratedPlan.data plan))
                 (Some (OpenAIMore.configured OPENAI_API_KEY))
                 (Some ACTIVE)
                 (Some disclaimer)) with
      | Throw _ => (db, Response 500 (Message "Failed to generate plan"))
      | Return (db', stored) => (db', Response 201 (PlanBody stored))
      end
  end.

End routes.

End Routes.

(** Example data for the further statements. *)
Module MoreExamples.

(** A reader of replies that knows two of them. *)
Definition parseTwo (content : string) : option OpenAIMore.reply :=
  if decide (content = "null") then Some OpenAIMore.JsonNull
  else if decide (content = "{}")
  then Some (OpenAIMore.JsonValue None None None)
  else None.

Definition twoReplies : OpenAIMore.Json := {| OpenAIMore.parse := parseTwo |}.

Definition bob : User.t :=
  User.mk "u2" "bob@example.com" "$2b$10$stored" "Bob" "ADMIN".

Definition session (i u : string) (plan : option string) (date : Z)
  : WorkoutSession.t :=
  WorkoutSession.mk i u plan date (Some 30) (Some 200) None true date.

(** Two users, three plans, three sessions. *)
Definition db : Storage.DB Z :=
  Storage.mkDB [Examples.alice; bob]
    [ Examples.plan "p1" "u1" ACTIVE 1000;
      Examples.plan "p2" "u1" PAUSED 2000;
      Examples.plan "p3" "u2" ACTIVE 3000 ]
    [ session "s1" "u1" (Some "p1") 1500;
      session "s2" "u1" None 2500;
      session "s3" "u2" (Some "p3") 3500 ]
    [].

Definition aliceAuth : AuthUser.t :=
  AuthUser.mk "u1" "alice@example.com" "USER".

Definition newcomer : Routes.SignupData.t :=
  Routes.SignupData.mk "carol@example.com" "correct horse" "Carol".

(** The plan stored for [Examples.request] when the service fails. *)
Definition generated : Plan.t :=
  Plan.mk "p9" "u1" "Fat Burn 4-Week Plan"
    (Some "A beginner 4-week program focusing on weight loss. Train 3 days per week.")
    "weight_loss" BEGINNER 3 4
    (Some (GeneratedPlan.data (OpenAI.generateFallbackPlan Examples.request)))
    true ACTIVE (Some Routes.disclaimer) 5000 5000.

Definition withPlan (p : Plan.t) : Storage.DB Z :=
  Storage.mkDB (Storage.users db) (Storage.plans db ++ [p])
    (Storage.workoutSessions db) (Storage.progress db).

Definition carol : User.t :=
  User.mk "u3" "carol@example.com" Reference.sixty "Carol" "USER".

Definition withUser (u : User.t) : Storage.DB Z :=
  Storage.mkDB (Storage.users db ++ [u]) (Storage.plans db)
    (Storage.workoutSessions db) (Storage.progress db).

End MoreExamples.

(** ** The reference implementations meet the interfaces *)

Global Instance le_on_transitive {A} (key : A → Z) :
  Transitive (Reference.le_on key).
Proof. unfold Reference.le_on. intros a b c. lia. Qed.

Global Instance le_on_total {A} (key : A → Z) : Total (Reference.le_on key).
Proof. unfold Reference.le_on. intros a b. lia. Qed.

Global Instance ge_on_transitive {A} (key : A → Z) :
  Transitive (Reference.ge_on key).
Proof. unfold Reference.ge_on. intros a b c. lia. Qed.

Global Instance ge_on_total {A} (key : A → Z) : Total (Reference.ge_on key).
Proof. unfold Reference.ge_on. intros a b. lia. Qed.

Definition mergeSortEngine : Storage.Engine :=
  {| Storage.orderBy := @Reference.sortAsc;
     Storage.orderByDesc := @Reference.sortDesc;
     Storage.orderBy_sorted A key l :=
       StronglySorted_merge_sort (Reference.le_on key) l;
     Storage.orderBy_perm A key l :=
       merge_sort_Permutation (Reference.le_on key) l;
     Storage.orderByDesc_sorted A key l :=
       StronglySorted_merge_sort (Reference.ge_on key) l;
     Storage.orderByDesc_perm A key l :=
       merge_sort_Permutation (Reference.ge_on key) l |}.

Definition utcDates : Storage.DateLib :=
  {| Storage.subDays := Reference.subDaysUTC;
     Storage.startOfWeek := Reference.startOfWeekUTC;
     Storage.endOfWeek := Reference.endOfWeekUTC;
     Storage.toISOString := Reference.toISOStringUTC |}.

Example toISOStringUTC_epoch :
  Reference.toISOStringUTC 0 = "1970-01-01T00:00:00.000Z".
Proof. reflexivity. Qed.

Example toISOStringUTC_2023 :
  Reference.toISOStringUTC 1700000000123 = "2023-11-14T22:13:20.123Z".
Proof. reflexivity. Qed.

Example startOfWeekUTC_2023 :
  Reference.toISOStringUTC (Reference.startOfWeekUTC 1700000000123)
    = "2023-11-13T00:00:00.000Z".
Proof. reflexivity. Qed.

Lemma pos_of_bits_of_pos p :
  Reference.pos_of_bits (Reference.bits_of_pos p) = Some p.
Proof. induction p as [p IH|p IH|]; simpl; by rewrite ?IH. Qed.

Lemma verifyClear_signClear c k ttl now now' :
  Reference.verifyClear (Reference.signClear c k ttl now) k now' =
    if Jwt.seconds now' <? Jwt.seconds now + ttl
    then Return (Jwt.mkPayload (Jwt.c_id c) (Jwt.c_email c) (Jwt.c_role c)
                   (Jwt.seconds now) (Jwt.seconds now + ttl))
    else Throw Jwt.TokenExpiredError.
Proof.
  unfold Reference.verifyClear, Reference.signClear.
  rewrite pos_of_bits_of_pos. cbn [mbind option_bind].
  rewrite decode_encode. by rewrite decide_True.
Qed.

Lemma verifyClear_sign c k ttl now now' :
  Jwt.seconds now' < Jwt.seconds now + ttl →
  Reference.verifyClear (Reference.signClear c k ttl now) k now' =
    Return (Jwt.mkPayload (Jwt.c_id c) (Jwt.c_email c) (Jwt.c_role c)
              (Jwt.seconds now) (Jwt.seconds now + ttl)).
Proof.
  intros Hlt. rewrite verifyClear_signClear.
  by destruct (Z.ltb_spec (Jwt.seconds now') (Jwt.seconds now + ttl)); [|lia].
Qed.

Lemma verifyClear_expired c k ttl now now' :
  Jwt.seconds now + ttl ≤ Jwt.seconds now' →
  Reference.verifyClear (Reference.signClear c k ttl now) k now' =
    Throw Jwt.TokenExpiredError.
Proof.
  intros Hle. rewrite verifyClear_signClear.
  by destruct (Z.ltb_spec (Jwt.seconds now') (Jwt.seconds now + ttl)); [lia|].
Qed.

Definition clearTokens : Jwt.Lib :=
  {| Jwt.sign := Reference.signClear;
     Jwt.verify := Reference.verifyClear;
     Jwt.verify_sign := verifyClear_sign;
     Jwt.verify_expired := verifyClear_expired |}.

Lemma hashKeep_length password rounds s :
  String.length (Reference.hashKeep password rounds s) = 60%nat.
Proof.
  unfold Reference.hashKeep.
  by destruct (decide (String.length password = 60%nat)).
Qed.

Definition keepLong : Bcrypt.Lib :=
  {| Bcrypt.salt := unit;
     Bcrypt.hash := Reference.hashKeep;
     Bcrypt.compare := Reference.compareKeep;
     Bcrypt.compare_hash password _ _ :=
       String.eqb_refl (Reference.hashKeep password 0 tt);
     Bcrypt.hash_length := hashKeep_length |}.

(** ** Loops as maps over an integer range *)

Section loops.
Context {B : Type}.

Lemma for_upto_push (hi : Z) (f : Z → B) (body : Z → list B → list B) :
  (∀ i acc, body i acc = JS.push (f i) acc) →
  ∀ lo acc,
    JS.for_upto hi body lo acc = acc ++ map f (seqZ lo (hi + 1 - lo)).
Proof.
  intros Hbody lo.
  remember (Z.to_nat (hi + 1 - lo)) as n eqn:Hn.
  revert lo Hn; induction n as [|n IH]; intros lo Hn acc;
    rewrite JS.for_upto_equation_1; destruct (Z_le_gt_dec lo hi) as [Hle|Hgt];
    simpl; try lia.
  - rewrite seqZ_nil by lia. simpl. by rewrite app_nil_r.
  - rewrite IH by lia. rewrite Hbody. unfold JS.push.
    rewrite (seqZ_cons lo) by lia. simpl.
    rewrite <- app_assoc. simpl.
    replace (Z.succ lo) with (lo + 1) by lia.
    replace (Z.pred (hi + 1 - lo)) with (hi + 1 - (lo + 1)) by lia.
    done.
Qed.
End loops.

(** ** The shape of the fallback plan *)

Lemma planDays_eq params w :
  planDays params w = map (planDay params w) (seqZ 1 7).
Proof.
  unfold planDays.
  by rewrite (for_upto_push 7 (planDay params w)).
Qed.

Lemma planWeeks_eq params :
  planWeeks params =
  map (λ w, PlanWeek.mk w (planDays params w))
      (seqZ 1 (GeneratePlanData.durationWeeks params)).
Proof.
  unfold planWeeks.
  rewrite (for_upto_push _ (λ w, PlanWeek.mk w (planDays params w))) by done.
  simpl. do 2 f_equal. lia.
Qed.

Lemma elem_of_fallbackWeeks params wk :
  wk ∈ fallbackWeeks params ↔
  ∃ w, 1 ≤ w ≤ GeneratePlanData.durationWeeks params ∧
       wk = PlanWeek.mk w (map (planDay params w) (seqZ 1 7)).
Proof.
  unfold fallbackWeeks. simpl. rewrite planWeeks_eq, list_elem_of_fmap.
  split.
  - intros (w & -> & Hw). apply elem_of_seqZ in Hw.
    exists w. rewrite planDays_eq. split; [lia|done].
  - intros (w & Hw & ->). exists w. rewrite planDays_eq.
    split; [done|]. apply elem_of_seqZ. lia.
Qed.

Lemma planDays_active_count params w :
  1 ≤ GeneratePlanData.frequencyPerWeek params ≤ 7 →
  Z.of_nat (length (filter active (map (planDay params w) (seqZ 1 7)))) =
  GeneratePlanData.frequencyPerWeek params.
Proof.
  destruct params as [g l F W e t i]. simpl. intros HF.
  assert (F = 1 ∨ F = 2 ∨ F = 3 ∨ F = 4 ∨ F = 5 ∨ F = 6 ∨ F = 7)
    as Hcases by lia.
  destruct Hcases as [->|[->|[->|[->|[->|[->| ->]]]]]]; reflexivity.
Qed.

(** C1.  For every valid generation request (durationWeeks W in 1..52,
    frequencyPerWeek F in 1..7) the plan of [generateFallbackPlan] has
    exactly W weeks, each week has exactly 7 day entries, and exactly F of
    them carry [restDay: false]. *)
Theorem generateFallbackPlan_shape (params : GeneratePlanData.t) :
  GeneratePlanData.valid params →
  Z.of_nat (length (fallbackWeeks params))
    = GeneratePlanData.durationWeeks params ∧
  Forall (λ wk,
            length (PlanWeek.days wk) = 7%nat ∧
            Z.of_nat (length (filter active (PlanWeek.days wk)))
              = GeneratePlanData.frequencyPerWeek params)
         (fallbackWeeks params).
Proof.
  intros [HW HF]. split.
  - unfold fallbackWeeks. simpl.
    rewrite planWeeks_eq, length_map, length_seqZ. lia.
  - apply list.Forall_forall. intros wk Hwk.
    apply elem_of_fallbackWeeks in Hwk as (w & Hw & ->).
    cbn [PlanWeek.days]. split.
    + by rewrite length_map, length_seqZ.
    + by apply planDays_active_count.
Qed.

(** The request of the specification's example: 4 weeks, 3 workouts per
    week give 4 weeks of 7 entries with 3 active days each. *)
Lemma generateFallbackPlan_shape_witness :
  Z.of_nat (length (fallbackWeeks Examples.request)) = 4 ∧
  Forall (λ wk,
            length (PlanWeek.days wk) = 7%nat ∧
            Z.of_nat (length (filter active (PlanWeek.days wk))) = 3)
         (fallbackWeeks Examples.request).
Proof.
  apply (generateFallbackPlan_shape Examples.request).
  unfold GeneratePlanData.valid. simpl. lia.
Defined.

Lemma elem_of_planDays params w d :
  d ∈ map (planDay params w) (seqZ 1 7) ↔
  ∃ n, 1 ≤ n ≤ 7 ∧ d = planDay params w n.
Proof.
  rewrite list_elem_of_fmap. split.
  - intros (n & -> & Hn). apply elem_of_seqZ in Hn. exists n. split; [lia|done].
  - intros (n & Hn & ->). exists n. split; [done|]. apply elem_of_seqZ. lia.
Qed.

Lemma planDay_active params w n :
  active (planDay params w n) →
  n ≤ GeneratePlanData.frequencyPerWeek params ∧
  planDay params w n =
    PlanDay.mk n
      (if Z.rem n 2 =? 1 then "Full Body Workout A" else "Full Body Workout B")
      (JS.slice exercises 0 (4 + Z.rem w 2)) (Some false).
Proof.
  unfold planDay, active.
  destruct (Z.leb_spec n (GeneratePlanData.frequencyPerWeek params));
    simpl; [done|discriminate].
Qed.

Lemma rem2_odd w : 0 ≤ w → Z.rem w 2 = if Z.odd w then 1 else 0.
Proof. intros Hw. rewrite Z.rem_mod_nonneg by lia. apply Zmod_odd. Qed.

(** C2.  Every active day of week number w carries the prefix of the
    six-exercise list of length 4 + (w mod 2), clipped to the length of
    the list: 5 exercises in odd-numbered weeks, 4 in even-numbered
    ones. *)
Theorem active_day_exercises
    (params : GeneratePlanData.t) (wk : PlanWeek.t) (d : PlanDay.t) :
  wk ∈ fallbackWeeks params →
  d ∈ PlanWeek.days wk →
  active d →
  let w := PlanWeek.weekNumber wk in
  let n := Z.min (4 + Z.rem w 2) (Z.of_nat (length exercises)) in
  PlanDay.exercises d = take (Z.to_nat n) exercises ∧
  Z.of_nat (length (PlanDay.exercises d)) = n ∧
  n = (if Z.odd w then 5 else 4).
Proof.
  intros Hwk Hd Hact.
  apply elem_of_fallbackWeeks in Hwk as (w & Hw & ->).
  cbn [PlanWeek.days PlanWeek.weekNumber] in *.
  apply elem_of_planDays in Hd as (k & Hk & ->).
  apply planDay_active in Hact as [_ ->].
  cbn [PlanDay.exercises].
  rewrite (rem2_odd w) by lia.
  destruct (Z.odd w); repeat split; reflexivity.
Qed.

Lemma active_day_exercises_witness :
  ∃ wk d,
    PlanWeek.weekNumber wk = 1 ∧ PlanDay.dayNumber d = 2 ∧
    PlanDay.exercises d = take 5 exercises ∧
    Z.of_nat (length (PlanDay.exercises d)) = 5.
Proof.
  exists Examples.week1, Examples.day2.
  split; [reflexivity|]. split; [reflexivity|].
  pose proof (active_day_exercises Examples.request
                Examples.week1 Examples.day2) as H.
  cbv zeta in H.
  destruct H as (H1 & H2 & _).
  - vm_compute. left.
  - vm_compute. right. left.
  - reflexivity.
  - split; [exact H1|exact H2].
Defined.

(** C3 fails as stated: in the plan for 4 weeks and 3 workouts per week,
    days 1 and 2 of week 1 are both active and carry the same five
    exercises. *)
Lemma consecutive_days_same_exercises :
  GeneratePlanData.valid Examples.request ∧
  ¬ consecutive_days_differ Examples.request.
Proof.
  split; [unfold GeneratePlanData.valid; simpl; lia|].
  intros Hclaim.
  apply (Hclaim Examples.week1 Examples.day1 Examples.day2).
  - vm_compute. left.
  - vm_compute. left.
  - vm_compute. right. left.
  - reflexivity.
  - reflexivity.
  - reflexivity.
  - reflexivity.
Qed.

(** C3, amended.  Within a week the active days alternate between two
    fixed names, "Full Body Workout A" on odd day numbers and "Full Body
    Workout B" on even ones, so consecutive active days differ in name;
    all active days of one week carry the same exercise list. *)
Theorem active_days_alternate_names
    (params : GeneratePlanData.t) (wk : PlanWeek.t) (d1 d2 : PlanDay.t) :
  wk ∈ fallbackWeeks params →
  d1 ∈ PlanWeek.days wk → d2 ∈ PlanWeek.days wk →
  active d1 → active d2 →
  PlanDay.exercises d1 = PlanDay.exercises d2 ∧
  PlanDay.name d1 = (if Z.odd (PlanDay.dayNumber d1)
                     then "Full Body Workout A" else "Full Body Workout B") ∧
  PlanDay.name d2 = (if Z.odd (PlanDay.dayNumber d2)
                     then "Full Body Workout A" else "Full Body Workout B") ∧
  (PlanDay.dayNumber d2 = PlanDay.dayNumber d1 + 1 →
   PlanDay.name d1 ≠ PlanDay.name d2).
Proof.
  intros Hwk Hd1 Hd2 Ha1 Ha2.
  apply elem_of_fallbackWeeks in Hwk as (w & Hw & ->).
  cbn [PlanWeek.days] in *.
  apply elem_of_planDays in Hd1 as (k1 & Hk1 & ->).
  apply elem_of_planDays in Hd2 as (k2 & Hk2 & ->).
  apply planDay_active in Ha1 as [_ ->].
  apply planDay_active in Ha2 as [_ ->].
  cbn [PlanDay.exercises PlanDay.name PlanDay.dayNumber].
  rewrite (rem2_odd k1), (rem2_odd k2) by lia.
  split; [reflexivity|].
  split; [by destruct (Z.odd k1)|].
  split; [by destruct (Z.odd k2)|].
  intros ->. replace (k1 + 1) with (Z.succ k1) by lia.
  rewrite Z.odd_succ, <- Z.negb_odd.
  by destruct (Z.odd k1).
Qed.

Lemma active_days_alternate_names_witness :
  PlanDay.exercises Examples.day1 = PlanDay.exercises Examples.day2 ∧
  PlanDay.name Examples.day1 = "Full Body Workout A" ∧
  PlanDay.name Examples.day2 = "Full Body Workout B" ∧
  (2 = 1 + 1 → PlanDay.name Examples.day1 ≠ PlanDay.name Examples.day2).
Proof.
  apply (active_days_alternate_names Examples.request
           Examples.week1 Examples.day1 Examples.day2).
  - vm_compute. left.
  - vm_compute. left.
  - vm_compute. right. left.
  - reflexivity.
  - reflexivity.
Defined.

(** ** Title and description of the fallback plan *)

(** C8 fails as stated, for both texts.  The goals "yoga" and "pilates"
    are absent from the table, so both look up to "Fitness", yet the
    descriptions of the two plans differ: the description quotes the goal
    itself.  The goal "toString" is absent from the table as well, yet its
    title is not the one of "yoga": the lookup finds the member the table
    object inherits. *)
Lemma texts_not_from_goalNames :
  ¬ derived_from_goalNames GeneratedPlan.description ∧
  ¬ derived_from_goalNames GeneratedPlan.title.
Proof.
  split.
  - intros Hdesc.
    specialize (Hdesc "yoga" "pilates" Examples.request eq_refl).
    vm_compute in Hdesc. discriminate.
  - intros Htitle.
    specialize (Htitle "yoga" "toString" Examples.request eq_refl).
    vm_compute in Htitle. discriminate.
Qed.

Example title_of_toString :
  GeneratedPlan.title
    (generateFallbackPlan
       (GeneratePlanData.withGoal "toString" Examples.request)) =
  "function toString() { [native code] } 4-Week Plan".
Proof. reflexivity. Qed.

Example description_of_request :
  GeneratedPlan.description (generateFallbackPlan Examples.request) =
  "A beginner 4-week program focusing on weight loss. Train 3 days per week.".
Proof. reflexivity. Qed.

Lemma goalNames_truthy goal s :
  goalNames !! goal = Some s → JS.truthy s = true.
Proof.
  unfold goalNames. intros Hs.
  repeat (apply lookup_insert_Some in Hs as [[_ <-]|[_ Hs]]; [reflexivity|]).
  by rewrite lookup_empty in Hs.
Qed.

(** C8, amended.  For a goal that is not the name of a member inherited
    from [Object.prototype], the title is the entry of the goal-name
    table, or "Fitness" when the table has none, followed by the number
    of weeks and "-Week Plan".  The description does not use the table:
    it is made of the level in lower case, the number of weeks, the goal
    text itself with its first underscore turned into a space, and the
    weekly frequency. *)
Theorem fallback_title_description (params : GeneratePlanData.t) :
  GeneratePlanData.goal params ∉ JS.objectPrototypeKeys →
  GeneratedPlan.title (generateFallbackPlan params) =
    goalName (GeneratePlanData.goal params) +:+ " "
      +:+ JS.numberToString (GeneratePlanData.durationWeeks params)
      +:+ "-Week Plan" ∧
  GeneratedPlan.description (generateFallbackPlan params) =
    "A " +:+ JS.toLowerCase (Level_str (GeneratePlanData.level params))
      +:+ " " +:+ JS.numberToString (GeneratePlanData.durationWeeks params)
      +:+ "-week program focusing on "
      +:+ JS.replace "_" " " (GeneratePlanData.goal params)
      +:+ ". Train "
      +:+ JS.numberToString (GeneratePlanData.frequencyPerWeek params)
      +:+ " days per week.".
Proof.
  intros Hown. split; [|reflexivity].
  cbn [generateFallbackPlan GeneratedPlan.title]. f_equal.
  unfold JS.get_or, JS.get, goalName.
  destruct (goalNames !! GeneratePlanData.goal params) as [s|] eqn:Hs; simpl.
  - by rewrite (goalNames_truthy _ _ Hs).
  - by rewrite decide_False.
Qed.

Lemma fallback_title_description_witness :
  GeneratedPlan.title (generateFallbackPlan Examples.request)
    = "Fat Burn 4-Week Plan" ∧
  GeneratedPlan.description (generateFallbackPlan Examples.request)
    = "A beginner 4-week program focusing on weight loss. Train 3 days per week.".
Proof.
  apply (fallback_title_description Examples.request).
  apply (bool_decide_unpack _). vm_compute. exact I.
Defined.

(** ** Tokens and the authentication middleware *)

Lemma substring_all (s : string) : String.substring 0 (String.length s) s = s.
Proof. induction s as [|c s IH]; simpl; by rewrite ?IH. Qed.

Lemma bearer_header (token : string) :
  JS.truthy ("Bearer " +:+ token) = true ∧
  JS.startsWith ("Bearer " +:+ token) "Bearer " = true ∧
  JS.drop_chars 7 ("Bearer " +:+ token) = token.
Proof.
  split; [reflexivity|]. split.
  - unfold JS.startsWith. simpl. by destruct token.
  - unfold JS.drop_chars. simpl. rewrite Nat.sub_0_r. apply substring_all.
Qed.

Section auth_facts.
Context `{Jwt.Lib}.
Variable SESSION_SECRET : option string.

Local Abbreviation secret := (Auth.JWT_SECRET SESSION_SECRET).
Local Abbreviation generateToken := (Auth.generateToken SESSION_SECRET).
Local Abbreviation verifyToken := (Auth.verifyToken SESSION_SECRET).
Local Abbreviation requireAuth := (Auth.requireAuth SESSION_SECRET).

Lemma verifyToken_Return token now p :
  Jwt.verify token secret now = Return p →
  verifyToken token now = Return (Some p).
Proof. unfold Auth.verifyToken. by intros ->. Qed.

Lemma verifyToken_Throw token now e :
  Jwt.verify token secret now = Throw e →
  verifyToken token now = Return None.
Proof. unfold Auth.verifyToken. by intros ->. Qed.

Lemma requireAuth_bearer req token now :
  Auth.Request.authorization req = Some ("Bearer " +:+ token) →
  requireAuth req now =
    match verifyToken token now with
    | Return None => Return (Auth.Responded 401 "Invalid or expired token")
    | Return (Some decoded) =>
        Return (Auth.Next
                  (Auth.Request.mk (Auth.Request.authorization req)
                     (Some (AuthUser.mk (Jwt.id decoded) (Jwt.email decoded)
                              (Jwt.role decoded)))))
    | Throw e => Throw e
    end.
Proof.
  intros Hauth. unfold Auth.requireAuth. rewrite Hauth.
  destruct (bearer_header token) as (-> & -> & ->). cbn [negb orb].
  by destruct (verifyToken token now) as [[d|]|e].
Qed.

(** C5.  [verifyToken] never throws: when the package accepts the token
    the result is the decoded claims, and on every failure of the
    package, whatever its cause (expired, malformed, bad signature), the
    result is the same null. *)
Theorem verifyToken_null_on_failure (token : string) (now : Z) :
  (∀ e, Jwt.verify token secret now = Throw e →
        verifyToken token now = Return None) ∧
  (∀ p, Jwt.verify token secret now = Return p →
        verifyToken token now = Return (Some p)) ∧
  (∀ e, verifyToken token now ≠ Throw e) ∧
  (verifyToken token now = Return None ∨
   ∃ p, verifyToken token now = Return (Some p)).
Proof.
  split; [intros e; apply verifyToken_Throw|].
  split; [intros p; apply verifyToken_Return|].
  unfold Auth.verifyToken.
  destruct (Jwt.verify token secret now) as [p|e]; simpl.
  - split; [discriminate|]. right. by exists p.
  - split; [discriminate|]. by left.
Qed.

(** C4.  A token issued for a user and verified under the same secret
    before its 7-day expiry yields claims with the user's id, email and
    role, and [requireAuth] lets the request through with them; from the
    expiry on the package rejects the token; and whenever the package
    rejects a token (expired, bad signature after tampering, malformed)
    [verifyToken] returns null and [requireAuth] answers 401. *)
Theorem token_roundtrip (user : User.t) (issued : Z) :
  (∀ now req,
     Jwt.seconds now < Jwt.seconds issued + Auth.expiresIn_7d →
     Auth.Request.authorization req
       = Some ("Bearer " +:+ generateToken user issued) →
     (∃ p, verifyToken (generateToken user issued) now = Return (Some p) ∧
           Jwt.id p = User.id user ∧
           Jwt.email p = User.email user ∧
           Jwt.role p = User.role user) ∧
     requireAuth req now =
       Return (Auth.Next
                 (Auth.Request.mk (Auth.Request.authorization req)
                    (Some (AuthUser.mk (User.id user) (User.email user)
                             (User.role user)))))) ∧
  (∀ now,
     Jwt.seconds issued + Auth.expiresIn_7d ≤ Jwt.seconds now →
     Jwt.verify (generateToken user issued) secret now
       = Throw Jwt.TokenExpiredError) ∧
  (∀ token now req e,
     Jwt.verify token secret now = Throw e →
     Auth.Request.authorization req = Some ("Bearer " +:+ token) →
     verifyToken token now = Return None ∧
     requireAuth req now =
       Return (Auth.Responded 401 "Invalid or expired token")).
Proof.
  split; [|split].
  - intros now req Hnow Hauth.
    pose proof (Jwt.verify_sign
                  (Jwt.mkClaims (User.id user) (User.email user)
                     (User.role user))
                  secret Auth.expiresIn_7d issued now Hnow) as Hv.
    apply verifyToken_Return in Hv. split.
    + eexists. split; [exact Hv|]. by cbn.
    + rewrite (requireAuth_bearer _ _ _ Hauth).
      unfold Auth.generateToken. by rewrite Hv.
  - intros now Hnow. by apply Jwt.verify_expired.
  - intros token now req e Hv Hauth.
    apply verifyToken_Throw in Hv. split; [done|].
    by rewrite (requireAuth_bearer _ _ _ Hauth), Hv.
Qed.

End auth_facts.

Lemma token_roundtrip_witness :
  let token := Auth.generateToken (H := clearTokens) None Examples.alice
                 1700000000000 in
  (∃ p, Auth.verifyToken (H := clearTokens) None token 1700086400000
          = Return (Some p) ∧
        Jwt.id p = "u1" ∧ Jwt.email p = "alice@example.com" ∧
        Jwt.role p = "USER") ∧
  Auth.verifyToken (H := clearTokens) None token 1700604800000 = Return None.
Proof.
  intros token.
  destruct (token_roundtrip (H := clearTokens) None Examples.alice
              1700000000000) as (Hok & Hexp & Hrej).
  split.
  - apply (Hok 1700086400000
             (Auth.Request.mk (Some ("Bearer " +:+ token)) None)).
    + vm_compute. reflexivity.
    + reflexivity.
  - apply (Hrej token 1700604800000
             (Auth.Request.mk (Some ("Bearer " +:+ token)) None)
             Jwt.TokenExpiredError).
    + apply Hexp. vm_compute. discriminate.
    + reflexivity.
Defined.

Lemma verifyToken_null_on_failure_witness :
  Auth.verifyToken (H := clearTokens) None "not-a-token" 1700000000000
    = Return None.
Proof.
  destruct (verifyToken_null_on_failure (H := clearTokens) None "not-a-token"
              1700000000000) as [Hfail _].
  apply (Hfail (Jwt.JsonWebTokenError "jwt malformed")).
  reflexivity.
Defined.

(** ** Passwords *)

(** Checking a password against the hash [hashPassword] made of it
    succeeds, whatever salt the package drew. *)
Lemma comparePassword_hashPassword `{Bcrypt.Lib} (password : string)
    (s : Bcrypt.salt) :
  Auth.comparePassword password (Auth.hashPassword password s) = true.
Proof.
  unfold Auth.comparePassword, Auth.hashPassword. apply Bcrypt.compare_hash.
Qed.

(** A password that is not 60 characters long differs from its hash. *)
Lemma hashPassword_differs `{Bcrypt.Lib} (password : string)
    (s : Bcrypt.salt) :
  String.length password ≠ 60%nat →
  Auth.hashPassword password s ≠ password.
Proof.
  intros Hlen Heq. apply Hlen. rewrite <- Heq.
  unfold Auth.hashPassword. apply Bcrypt.hash_length.
Qed.

(** The contract does not tell the hash of a 60-character password from
    the password: [keepLong] meets it and returns such a password
    unchanged.  That no bcrypt hash equals the password it was made of
    rests on the hash function itself, which this development does not
    model. *)
Example hashPassword_keepLong :
  Auth.hashPassword (H0 := keepLong) Reference.sixty tt = Reference.sixty.
Proof. reflexivity. Qed.

(** ** Storage queries *)

Section storage_facts.
Context `{Storage.Engine} `{Storage.DateLib} {real : Type}.
Variable db : Storage.DB real.

Lemma head_take_1 {A} (l : list A) : head (take 1 l) = head l.
Proof. by destruct l. Qed.

Lemma StronglySorted_filter {A} (R : relation A) (P : A → Prop)
    `{∀ x, Decision (P x)} (l : list A) :
  StronglySorted R l → StronglySorted R (filter P l).
Proof.
  induction 1 as [|x l Hl IH Hx]; [constructor|].
  rewrite filter_cons. destruct (decide (P x)); [|done].
  constructor; [done|].
  apply list.Forall_forall. intros y Hy.
  apply list_elem_of_filter in Hy as [_ Hy].
  rewrite list.Forall_forall in Hx. by apply Hx.
Qed.

(** C9.  [getActivePlanByUserId] returns a plan only if the plan is a
    row of the given user with status ACTIVE; the plan it returns is a
    most recently created one among those rows; and it returns
    undefined exactly when there is no such row. *)
Theorem getActivePlanByUserId_spec (userId : string) :
  (∀ p, Storage.getActivePlanByUserId db userId = Some p →
        p ∈ Storage.plans db ∧
        Plan.userId p = userId ∧ Plan.status p = ACTIVE ∧
        ∀ q, q ∈ Storage.plans db →
             Plan.userId q = userId → Plan.status q = ACTIVE →
             Plan.createdAt q ≤ Plan.createdAt p) ∧
  (Storage.getActivePlanByUserId db userId = None ↔
   ∀ q, q ∈ Storage.plans db →
        ¬ (Plan.userId q = userId ∧ Plan.status q = ACTIVE)).
Proof.
  unfold Storage.getActivePlanByUserId. rewrite head_take_1.
  set (rows := filter _ (Storage.plans db)).
  pose proof (Storage.orderByDesc_perm Plan.createdAt rows) as Hperm.
  pose proof (Storage.orderByDesc_sorted Plan.createdAt rows) as Hsort.
  destruct (Storage.orderByDesc Plan.createdAt rows) as [|p sorted] eqn:Hs;
    simpl; split.
  - discriminate.
  - split; [|done]. intros _ q Hq Hmatch.
    assert (q ∈ rows) as Hin by (apply list_elem_of_filter; done).
    rewrite <- Hperm in Hin. by apply elem_of_nil in Hin.
  - intros p' [= <-].
    assert (p ∈ rows) as Hp by (rewrite <- Hperm; left).
    apply list_elem_of_filter in Hp as [[Hu Hst] Hp].
    repeat split; try done.
    intros q Hq Hqu Hqs.
    assert (q ∈ p :: sorted) as Hin
        by (rewrite Hperm; apply list_elem_of_filter; done).
    apply StronglySorted_inv in Hsort as [_ Hall].
    apply elem_of_cons in Hin as [->|Hin]; [lia|].
    rewrite list.Forall_forall in Hall. by apply Hall.
  - split; [discriminate|]. intros Hnone. exfalso.
    assert (p ∈ rows) as Hp by (rewrite <- Hperm; left).
    apply list_elem_of_filter in Hp as [Hmatch Hp].
    by apply (Hnone p).
Qed.

Lemma getProgressChart_rows now userId days :
  Storage.getProgressChart db now userId days =
  map (λ r, Storage.ChartPoint.mk
              (Storage.toISOString (Progress.date r)) (Progress.weightKg r))
      (chartRows db now userId days).
Proof.
  unfold Storage.getProgressChart, chartRows. cbv zeta.
  induction (Storage.orderBy _ _) as [|r rows IH]; [done|].
  cbn [map]. rewrite !filter_cons. cbn [snd].
  destruct (decide (Progress.weightKg r ≠ None)); cbn [map fst snd];
    by rewrite IH.
Qed.

(** C10.  The entries of [getProgressChart] are the images, in order,
    of rows of the progress table that belong to the given user, carry
    a weight, and are dated no earlier than [days] days before now; the
    rows come in ascending date order, and every returned weight is a
    number, not null. *)
Theorem getProgressChart_spec (now : Z) (userId : string) (days : Z) :
  ∃ rows : list (Progress.t real),
    Storage.getProgressChart db now userId days =
      map (λ r, Storage.ChartPoint.mk
                  (Storage.toISOString (Progress.date r))
                  (Progress.weightKg r)) rows ∧
    Forall (λ r, r ∈ Storage.progress db ∧
                 Progress.userId r = userId ∧
                 is_Some (Progress.weightKg r) ∧
                 Storage.subDays now days ≤ Progress.date r) rows ∧
    StronglySorted (λ a b, Progress.date a ≤ Progress.date b) rows ∧
    Forall (λ e, is_Some (Storage.ChartPoint.weight e))
           (Storage.getProgressChart db now userId days).
Proof.
  exists (chartRows db now userId days).
  assert (Forall (λ r, r ∈ Storage.progress db ∧
                       Progress.userId r = userId ∧
                       is_Some (Progress.weightKg r) ∧
                       Storage.subDays now days ≤ Progress.date r)
                 (chartRows db now userId days)) as Hrows.
  { apply list.Forall_forall. intros r Hr. unfold chartRows in Hr.
    apply list_elem_of_filter in Hr as [Hw Hr].
    rewrite Storage.orderBy_perm in Hr.
    apply list_elem_of_filter in Hr as [[Hu Hd] Hr].
    repeat split; try done.
    by destruct (Progress.weightKg r). }
  split; [apply getProgressChart_rows|].
  split; [exact Hrows|]. split.
  - unfold chartRows. apply StronglySorted_filter, Storage.orderBy_sorted.
  - rewrite getProgressChart_rows. apply Forall_fmap.
    eapply list.Forall_impl; [exact Hrows|]. by intros r (_ & _ & Hw & _).
Qed.

(** C7.  The streak of [getUserStats] and the average of
    [getAdminStats] are the constant zero, whatever the database
    holds. *)
Theorem stats_hardcoded_zero (now : Z) (userId : string) :
  Storage.UserStats.streak (Storage.getUserStats db now userId) = 0 ∧
  Storage.AdminStats.averageWorkoutsPerWeek (Storage.getAdminStats db) = 0.
Proof. split; reflexivity. Qed.

End storage_facts.

(** ** The queries on an example database *)

Lemma getActivePlanByUserId_spec_witness :
  ∃ p, Storage.getActivePlanByUserId (H := mergeSortEngine) Examples.db "u1"
         = Some p ∧
       Plan.id p = "p2" ∧ Plan.userId p = "u1" ∧ Plan.status p = ACTIVE ∧
       Plan.createdAt (Examples.plan "p1" "u1" ACTIVE 1000) ≤ Plan.createdAt p.
Proof.
  exists (Examples.plan "p2" "u1" ACTIVE 3000).
  destruct (getActivePlanByUserId_spec (H := mergeSortEngine) Examples.db "u1")
    as [Hsome _].
  destruct (Hsome (Examples.plan "p2" "u1" ACTIVE 3000) eq_refl)
    as (_ & Hu & Hs & Hmax).
  split; [reflexivity|]. split; [reflexivity|].
  split; [exact Hu|]. split; [exact Hs|].
  apply Hmax; [|reflexivity|reflexivity].
  simpl. left.
Defined.

Example getActivePlanByUserId_none :
  Storage.getActivePlanByUserId (H := mergeSortEngine) Examples.db "u3" = None.
Proof. reflexivity. Qed.

Example getProgressChart_example :
  Storage.getProgressChart (H := mergeSortEngine) (H0 := utcDates)
    Examples.db 1700000400000 "u1" 30 =
  [ Storage.ChartPoint.mk "2023-11-14T22:13:20.000Z" (Some 72);
    Storage.ChartPoint.mk "2023-11-14T22:18:20.000Z" (Some 71) ].
Proof. reflexivity. Qed.

(** ** More on the fallback plan *)

Lemma fallbackWeeks_eq params :
  fallbackWeeks params =
  map (λ w, PlanWeek.mk w (map (planDay params w) (seqZ 1 7)))
      (seqZ 1 (GeneratePlanData.durationWeeks params)).
Proof.
  unfold fallbackWeeks. simpl. rewrite planWeeks_eq.
  apply map_ext. intros w. by rewrite planDays_eq.
Qed.

(** X1.  Whatever the request, the weeks of the fallback plan are
    numbered 1, 2, ... up to durationWeeks in this order (none when
    durationWeeks is below 1), and the days of every week are numbered 1
    to 7 in this order. *)
Theorem fallback_numbering (params : GeneratePlanData.t) :
  map PlanWeek.weekNumber (fallbackWeeks params)
    = seqZ 1 (GeneratePlanData.durationWeeks params) ∧
  Forall (λ wk, map PlanDay.dayNumber (PlanWeek.days wk) = seqZ 1 7)
         (fallbackWeeks params).
Proof.
  rewrite fallbackWeeks_eq. split.
  - rewrite map_map. cbn [PlanWeek.weekNumber]. apply map_id.
  - apply Forall_fmap, list.Forall_forall. intros w _.
    cbn [PlanWeek.days compose]. rewrite map_map.
    assert (∀ d, PlanDay.dayNumber (planDay params w d) = d) as Hd.
    { intros d. unfold planDay.
      by destruct (d <=? GeneratePlanData.frequencyPerWeek params). }
    rewrite (map_ext _ id) by (intros d; apply Hd). apply map_id.
Qed.

(** X2.  In every week of the fallback plan a day is active exactly when
    its number is at most frequencyPerWeek; every other day is a rest day
    named "Rest Day" without exercises. *)
Theorem fallback_active_prefix
    (params : GeneratePlanData.t) (wk : PlanWeek.t) (d : PlanDay.t) :
  wk ∈ fallbackWeeks params →
  d ∈ PlanWeek.days wk →
  (active d ↔
   PlanDay.dayNumber d ≤ GeneratePlanData.frequencyPerWeek params) ∧
  (¬ active d →
   PlanDay.restDay d = Some true ∧ PlanDay.name d = "Rest Day" ∧
   PlanDay.exercises d = []).
Proof.
  intros Hwk Hd.
  apply elem_of_fallbackWeeks in Hwk as (w & Hw & ->).
  cbn [PlanWeek.days] in Hd.
  apply elem_of_planDays in Hd as (k & Hk & ->).
  unfold planDay, active.
  destruct (Z.leb_spec k (GeneratePlanData.frequencyPerWeek params));
    cbn [PlanDay.restDay PlanDay.dayNumber PlanDay.name PlanDay.exercises].
  - split; [done|]. by intros [].
  - split; [|done]. split; [discriminate|lia].
Qed.

Lemma fallback_active_prefix_witness :
  (active Examples.day2 ↔ 2 ≤ 3) ∧
  (¬ active Examples.day2 →
   PlanDay.restDay Examples.day2 = Some true ∧
   PlanDay.name Examples.day2 = "Rest Day" ∧
   PlanDay.exercises Examples.day2 = []).
Proof.
  apply (fallback_active_prefix Examples.request Examples.week1 Examples.day2).
  - vm_compute. left.
  - vm_compute. right. left.
Defined.

Lemma filter_active_planDay params w (l : list Z) :
  length (filter active (map (planDay params w) l)) =
  length (filter (λ d, d ≤ GeneratePlanData.frequencyPerWeek params) l).
Proof.
  induction l as [|d l IH]; [done|].
  cbn [map]. rewrite !filter_cons.
  assert (active (planDay params w d) ↔
          d ≤ GeneratePlanData.frequencyPerWeek params) as Hiff.
  { unfold planDay, active.
    destruct (Z.leb_spec d (GeneratePlanData.frequencyPerWeek params));
      cbn [PlanDay.restDay]; split; try done; try lia. }
  destruct (decide (active (planDay params w d))) as [Ha|Ha],
    (decide (d ≤ GeneratePlanData.frequencyPerWeek params)) as [Hd|Hd];
    try tauto; simpl; by rewrite IH.
Qed.

(** X3.  For every integer frequencyPerWeek, also outside 1..7, each week
    of the fallback plan has as many active days as frequencyPerWeek
    clamped to the range 0..7. *)
Theorem fallback_active_count_clamped
    (params : GeneratePlanData.t) (wk : PlanWeek.t) :
  wk ∈ fallbackWeeks params →
  Z.of_nat (length (filter active (PlanWeek.days wk))) =
  Z.max 0 (Z.min (GeneratePlanData.frequencyPerWeek params) 7).
Proof.
  intros Hwk.
  apply elem_of_fallbackWeeks in Hwk as (w & Hw & ->).
  cbn [PlanWeek.days]. rewrite filter_active_planDay.
  change (seqZ 1 7) with [1; 2; 3; 4; 5; 6; 7].
  rewrite !filter_cons, filter_nil.
  repeat case_decide; simpl; lia.
Qed.

Lemma fallback_active_count_clamped_witness :
  Z.of_nat (length (filter active (PlanWeek.days Examples.week1))) = 3.
Proof.
  apply (fallback_active_count_clamped Examples.request Examples.week1).
  vm_compute. left.
Defined.

(** X4.  Every exercise the fallback plan schedules is one of the first
    five of the hardcoded list, with three sets: the sixth, "Burpees", is
    never scheduled. *)
Theorem fallback_never_burpees
    (params : GeneratePlanData.t) (wk : PlanWeek.t) (d : PlanDay.t)
    (e : PlanExercise.t) :
  wk ∈ fallbackWeeks params →
  d ∈ PlanWeek.days wk →
  e ∈ PlanDay.exercises d →
  e ∈ take 5 exercises ∧
  PlanExercise.sets e = 3 ∧
  PlanExercise.name e ≠ "Burpees".
Proof.
  intros Hwk Hd He.
  apply elem_of_fallbackWeeks in Hwk as (w & Hw & ->).
  cbn [PlanWeek.days] in Hd.
  apply elem_of_planDays in Hd as (k & Hk & ->).
  assert (e ∈ take 5 exercises) as Hin.
  { unfold planDay in He.
    destruct (k <=? GeneratePlanData.frequencyPerWeek params);
      cbn [PlanDay.exercises] in He; [|by apply elem_of_nil in He].
    rewrite (rem2_odd w) in He by lia.
    destruct (Z.odd w); [exact He|].
    change (JS.slice exercises 0 (4 + 0)) with (take 4 exercises) in He.
    change (take 5 exercises)
      with (take 4 exercises
            ++ [exercise "Mountain Climbers" "20" 45 "Fast pace"]).
    apply elem_of_app. by left. }
  split; [exact Hin|].
  cbn in Hin.
  repeat (apply elem_of_cons in Hin as [->|Hin]; [by split|]).
  by apply elem_of_nil in Hin.
Qed.

Lemma fallback_never_burpees_witness :
  exercise "Push-ups" "10-12" 60 "Keep core engaged" ∈ take 5 exercises ∧
  PlanExercise.sets (exercise "Push-ups" "10-12" 60 "Keep core engaged") = 3 ∧
  PlanExercise.name (exercise "Push-ups" "10-12" 60 "Keep core engaged")
    ≠ "Burpees".
Proof.
  apply (fallback_never_burpees Examples.request Examples.week1 Examples.day1).
  - vm_compute. left.
  - vm_compute. left.
  - vm_compute. left.
Defined.

(** X5.  Two weeks of the fallback plan whose numbers have the same
    parity hold the same seven day entries: the plan repeats every two
    weeks. *)
Theorem fallback_weeks_by_parity
    (params : GeneratePlanData.t) (wk1 wk2 : PlanWeek.t) :
  wk1 ∈ fallbackWeeks params →
  wk2 ∈ fallbackWeeks params →
  Z.odd (PlanWeek.weekNumber wk1) = Z.odd (PlanWeek.weekNumber wk2) →
  PlanWeek.days wk1 = PlanWeek.days wk2.
Proof.
  intros H1 H2.
  apply elem_of_fallbackWeeks in H1 as (w1 & Hw1 & ->).
  apply elem_of_fallbackWeeks in H2 as (w2 & Hw2 & ->).
  cbn [PlanWeek.days PlanWeek.weekNumber]. intros Hodd.
  apply map_ext. intros d. unfold planDay.
  by rewrite (rem2_odd w1), (rem2_odd w2), Hodd by lia.
Qed.

Lemma fallback_weeks_by_parity_witness :
  PlanWeek.days Examples.week1 =
  PlanWeek.days (PlanWeek.mk 3 (map (planDay Examples.request 3) (seqZ 1 7))).
Proof.
  apply (fallback_weeks_by_parity Examples.request).
  - vm_compute. left.
  - vm_compute. right. right. left.
  - reflexivity.
Defined.

(** X6.  The description quotes the goal with only its first underscore
    turned into a space: a goal without underscore is quoted as it is,
    and in a goal [a_b] where [a] has no underscore, [b] is quoted
    unchanged, further underscores included. *)
Theorem fallback_description_first_underscore
    (params : GeneratePlanData.t) (a b : string) :
  "_"%char ∉ String.list_ascii_of_string a →
  (GeneratePlanData.goal params = a →
   GeneratedPlan.description (generateFallbackPlan params) =
     "A " +:+ JS.toLowerCase (Level_str (GeneratePlanData.level params))
       +:+ " " +:+ JS.numberToString (GeneratePlanData.durationWeeks params)
       +:+ "-week program focusing on " +:+ a +:+ ". Train "
       +:+ JS.numberToString (GeneratePlanData.frequencyPerWeek params)
       +:+ " days per week.") ∧
  (GeneratePlanData.goal params = a +:+ "_" +:+ b →
   GeneratedPlan.description (generateFallbackPlan params) =
     "A " +:+ JS.toLowerCase (Level_str (GeneratePlanData.level params))
       +:+ " " +:+ JS.numberToString (GeneratePlanData.durationWeeks params)
       +:+ "-week program focusing on " +:+ (a +:+ " " +:+ b) +:+ ". Train "
       +:+ JS.numberToString (GeneratePlanData.frequencyPerWeek params)
       +:+ " days per week.").
Proof.
  intros Ha.
  assert (JS.replace "_" " " a = a ∧
          JS.replace "_" " " (a +:+ "_" +:+ b) = a +:+ " " +:+ b) as [H1 H2].
  { induction a as [|c a IH]; [done|].
    cbn [String.list_ascii_of_string] in Ha.
    apply not_elem_of_cons in Ha as [Hc Ha].
    destruct (IH Ha) as [IH1 IH2].
    simpl.
    destruct (Ascii.eqb_spec c "_") as [->|_]; [done|].
    change (String c a +:+ " " +:+ b) with (String c (a +:+ " " +:+ b)).
    by rewrite IH1, IH2. }
  split; intros Hgoal; cbn [generateFallbackPlan GeneratedPlan.description];
    rewrite Hgoal; by rewrite ?H1, ?H2.
Qed.

Lemma fallback_description_first_underscore_witness :
  GeneratedPlan.description
    (generateFallbackPlan
       (GeneratePlanData.withGoal "lose_belly_fat" Examples.request)) =
  "A beginner 4-week program focusing on lose belly_fat. Train 3 days per week.".
Proof.
  apply (fallback_description_first_underscore
           (GeneratePlanData.withGoal "lose_belly_fat" Examples.request)
           "lose" "belly_fat").
  - apply (bool_decide_unpack _). vm_compute. exact I.
  - reflexivity.
Defined.

(** ** More on the middleware *)

Lemma startsWith_split (p s : string) :
  JS.startsWith s p = true →
  s = p +:+ JS.drop_chars (String.length p) s.
Proof.
  unfold JS.startsWith, JS.drop_chars. revert s.
  induction p as [|a p IH]; intros s Hp.
  - simpl. by rewrite Nat.sub_0_r, substring_all.
  - destruct s as [|b s]; [discriminate|]. simpl in Hp.
    destruct (Ascii.ascii_dec a b) as [->|]; [|discriminate].
    change (String b p +:+ ?x) with (String b (p +:+ x)).
    f_equal. by apply IH.
Qed.

Section middleware_facts.
Context `{Jwt.Lib}.
Variable SESSION_SECRET : option string.

Local Abbreviation secret' := (Auth.JWT_SECRET SESSION_SECRET).
Local Abbreviation requireAuth' := (Auth.requireAuth SESSION_SECRET).
Local Abbreviation optionalAuth' := (AuthMore.optionalAuth SESSION_SECRET).
Local Abbreviation adminChain := (AuthMore.requireAuthThenAdmin SESSION_SECRET).

Lemma requireAuth_no_bearer req now :
  (Auth.Request.authorization req = None ∨
   ∃ h, Auth.Request.authorization req = Some h ∧
        JS.startsWith h "Bearer " = false) →
  requireAuth' req now
    = Return (Auth.Responded 401 "Authentication required").
Proof.
  unfold Auth.requireAuth. intros [->|(h & -> & ->)]; [done|].
  by rewrite orb_true_r.
Qed.

Lemma requireAuth_Next_inv req now r :
  requireAuth' req now = Return (Auth.Next r) →
  ∃ token p,
    Auth.Request.authorization req = Some ("Bearer " +:+ token) ∧
    Jwt.verify token secret' now = Return p ∧
    r = attach req p.
Proof.
  unfold Auth.requireAuth.
  destruct (Auth.Request.authorization req) as [h|] eqn:Hauth;
    [|discriminate].
  destruct (JS.startsWith h "Bearer ") eqn:Hstart;
    [|by rewrite orb_true_r].
  assert (JS.truthy h = true) as -> by (by destruct h).
  cbn [negb orb].
  pose proof (startsWith_split _ _ Hstart) as Hh.
  change (String.length "Bearer ") with 7%nat in Hh.
  unfold Auth.verifyToken.
  destruct (Jwt.verify (JS.drop_chars 7 h) secret' now) as [p|e] eqn:Hv;
    simpl; [|discriminate].
  intros [= <-]. exists (JS.drop_chars 7 h), p.
  split; [by rewrite <- Hh|]. split; [exact Hv|].
  unfold attach. by rewrite Hauth.
Qed.

Lemma requireAuth_not_Throw req now e : requireAuth' req now ≠ Throw e.
Proof.
  unfold Auth.requireAuth.
  destruct (Auth.Request.authorization req) as [h|]; [|discriminate].
  destruct (negb (JS.truthy h) || negb (JS.startsWith h "Bearer "));
    [discriminate|].
  unfold Auth.verifyToken.
  by destruct (Jwt.verify (JS.drop_chars 7 h) secret' now).
Qed.

(** X7.  [requireAuth] never throws.  Without an Authorization header,
    or with one that does not start with "Bearer ", it answers 401
    "Authentication required" whatever the clock and the token.  It hands
    a request on only when the header is "Bearer " followed by a token
    the package verifies under the server's secret, and then the user it
    attaches is the one of the decoded claims; the header is kept. *)
Theorem requireAuth_outcomes (req : Auth.Request.t) (now : Z) :
  ((Auth.Request.authorization req = None ∨
    ∃ h, Auth.Request.authorization req = Some h ∧
         JS.startsWith h "Bearer " = false) →
   requireAuth' req now
     = Return (Auth.Responded 401 "Authentication required")) ∧
  (∀ r, requireAuth' req now = Return (Auth.Next r) →
        ∃ token p,
          Auth.Request.authorization req = Some ("Bearer " +:+ token) ∧
          Jwt.verify token secret' now = Return p ∧
          r = attach req p) ∧
  (∀ e, requireAuth' req now ≠ Throw e).
Proof.
  split; [apply requireAuth_no_bearer|].
  split; [intros r; apply requireAuth_Next_inv|].
  intros e. apply requireAuth_not_Throw.
Qed.

Lemma optionalAuth_unfold req now :
  optionalAuth' req now =
  match requireAuth' req now with
  | Return (Auth.Next r) => Return (Auth.Next r)
  | Return (Auth.Responded _ _) => Return (Auth.Next req)
  | Throw e => Throw e
  end.
Proof.
  unfold AuthMore.optionalAuth, Auth.requireAuth.
  destruct (Auth.Request.authorization req) as [h|]; [|done].
  destruct (JS.truthy h), (JS.startsWith h "Bearer "); cbn [negb orb andb];
    try done.
  by destruct (Auth.verifyToken SESSION_SECRET (JS.drop_chars 7 h) now)
    as [[p|]|e].
Qed.

(** X8.  [optionalAuth] never rejects and never throws: it hands on
    exactly the request [requireAuth] would hand on when [requireAuth]
    accepts, and the request as it came, untouched, whenever
    [requireAuth] would answer 401. *)
Theorem optionalAuth_never_rejects (req : Auth.Request.t) (now : Z) :
  (∃ r, optionalAuth' req now = Return (Auth.Next r)) ∧
  (∀ r, requireAuth' req now = Return (Auth.Next r) →
        optionalAuth' req now = Return (Auth.Next r)) ∧
  (∀ status message,
     requireAuth' req now = Return (Auth.Responded status message) →
     optionalAuth' req now = Return (Auth.Next req)).
Proof.
  rewrite optionalAuth_unfold.
  pose proof (requireAuth_not_Throw req now) as Hthrow.
  destruct (requireAuth' req now) as [[s m|r]|e].
  - split; [by eexists|]. split; [discriminate|done].
  - split; [by eexists|]. split; [by intros ? [= <-]|discriminate].
  - by destruct (Hthrow e).
Qed.

(** X9.  Behind the chain [requireAuth, requireAdmin] a handler runs only
    for a request whose bearer token verifies to claims with the role
    "ADMIN"; a token issued for a user and presented before its expiry
    passes the chain when the user's role is "ADMIN" and is answered 403
    "Admin access required" otherwise. *)
Theorem admin_chain (req : Auth.Request.t) (now : Z) :
  (∀ r, adminChain req now = Return (Auth.Next r) →
        ∃ token p,
          Auth.Request.authorization req = Some ("Bearer " +:+ token) ∧
          Jwt.verify token secret' now = Return p ∧
          Jwt.role p = "ADMIN" ∧ r = attach req p) ∧
  (∀ user issued,
     Jwt.seconds now < Jwt.seconds issued + Auth.expiresIn_7d →
     Auth.Request.authorization req
       = Some ("Bearer " +:+ Auth.generateToken SESSION_SECRET user issued) →
     adminChain req now =
       Return (if decide (User.role user = "ADMIN")
               then Auth.Next
                      (Auth.Request.mk (Auth.Request.authorization req)
                         (Some (AuthUser.mk (User.id user) (User.email user)
                                  (User.role user))))
               else Auth.Responded 403 "Admin access required")).
Proof.
  unfold AuthMore.requireAuthThenAdmin. split.
  - intros r Hr.
    pose proof (requireAuth_Next_inv req now) as Hnext.
    destruct (requireAuth' req now) as [[s m|r']|e]; try discriminate.
    destruct (Hnext r' eq_refl) as (token & p & Hh & Hv & ->).
    simpl in Hr. unfold Auth.requireAdmin, attach in Hr.
    cbn [Auth.Request.user AuthUser.role] in Hr.
    destruct (decide (Jwt.role p = "ADMIN")) as [Hrole|]; [|discriminate].
    injection Hr as <-. by exists token, p.
  - intros user issued Hnow Hh.
    rewrite (requireAuth_bearer _ _ _ _ Hh).
    unfold Auth.generateToken, Auth.verifyToken.
    rewrite (Jwt.verify_sign _ _ _ issued now Hnow).
    simpl. unfold Auth.requireAdmin.
    cbn [Auth.Request.user AuthUser.role].
    by destruct (decide (User.role user = "ADMIN")).
Qed.

(** X10.  With SESSION_SECRET unset or empty the server signs and
    verifies with the string "fitstack-secret-key" of the source: a token
    anyone makes with that string, for any claims and lifetime, is
    accepted by [requireAuth] before its expiry, with those claims as the
    user. *)
Theorem default_secret_accepts (c : Jwt.claims) (ttl issued now : Z)
    (req : Auth.Request.t) :
  SESSION_SECRET = None ∨ SESSION_SECRET = Some "" →
  Jwt.seconds now < Jwt.seconds issued + ttl →
  Auth.Request.authorization req
    = Some ("Bearer " +:+ Jwt.sign c "fitstack-secret-key" ttl issued) →
  requireAuth' req now =
    Return (Auth.Next
              (Auth.Request.mk (Auth.Request.authorization req)
                 (Some (AuthUser.mk (Jwt.c_id c) (Jwt.c_email c)
                          (Jwt.c_role c))))).
Proof.
  intros Henv Hnow Hh.
  assert (secret' = "fitstack-secret-key") as Hsecret
      by (unfold Auth.JWT_SECRET; by destruct Henv as [-> | ->]).
  rewrite (requireAuth_bearer _ _ _ _ Hh).
  unfold Auth.verifyToken. rewrite Hsecret.
  by rewrite (Jwt.verify_sign c _ ttl issued now Hnow).
Qed.

End middleware_facts.

(** ** More on the storage *)

Lemma head_filter_Some {A} (P : A → Prop) `{∀ x, Decision (P x)}
    (l : list A) (x : A) :
  head (filter P l) = Some x → x ∈ l ∧ P x.
Proof.
  intros Hx. assert (x ∈ filter P l) as Hin.
  { destruct (filter P l); [discriminate|]. injection Hx as ->. left. }
  apply list_elem_of_filter in Hin. tauto.
Qed.

Lemma head_filter_None {A} (P : A → Prop) `{∀ x, Decision (P x)}
    (l : list A) :
  head (filter P l) = None ↔ ∀ x, x ∈ l → ¬ P x.
Proof.
  split.
  - intros Hnone x Hx HP.
    assert (x ∈ filter P l) as Hin by (by apply list_elem_of_filter).
    destruct (filter P l); [by apply elem_of_nil in Hin|discriminate].
  - intros Hall. destruct (filter P l) as [|y l'] eqn:Hf; [done|].
    assert (y ∈ filter P l) as Hin by (rewrite Hf; left).
    apply list_elem_of_filter in Hin as [HP Hy]. by destruct (Hall y Hy).
Qed.

Lemma filter_empty {A} (P : A → Prop) `{∀ x, Decision (P x)} (l : list A) :
  filter P l = [] ↔ ∀ x, x ∈ l → ¬ P x.
Proof.
  split.
  - intros Hf. apply (proj1 (head_filter_None P l)). by rewrite Hf.
  - intros Hall. apply (proj2 (head_filter_None P l)) in Hall.
    destruct (filter P l); [done|discriminate].
Qed.

Lemma filter_key_unique {A} (key : A → string) (l : list A) (x : A) :
  NoDup (map key l) → x ∈ l →
  filter (λ y, key y = key x) l = [x].
Proof.
  induction l as [|y l IH]; intros Hnd Hx; [by apply elem_of_nil in Hx|].
  cbn [map] in Hnd. apply list.NoDup_cons in Hnd as [Hy Hnd].
  rewrite filter_cons. apply elem_of_cons in Hx as [->|Hx].
  - rewrite decide_True by done. f_equal.
    apply filter_empty. intros z Hz Hkey.
    apply Hy. rewrite <- Hkey. apply list_elem_of_fmap. by exists z.
  - rewrite decide_False; [by apply IH|].
    intros Hkey. apply Hy. rewrite Hkey. apply list_elem_of_fmap. by exists x.
Qed.

Lemma head_None_key {A} (key : A → string) (l : list A) (k : string) :
  head (filter (λ x, key x = k) l) = None ↔ k ∉ map key l.
Proof.
  rewrite head_filter_None. split.
  - intros Hall Hin. apply list_elem_of_fmap in Hin as (x & -> & Hx).
    by apply (Hall x).
  - intros Hnot x Hx <-. apply Hnot, list_elem_of_fmap. by exists x.
Qed.

Section storage_more_facts.
Context `{Storage.Engine} {real : Type}.
Variable db : Storage.DB real.

(** X11.  [getPlanById] returns only a row of the table with the id
    asked for, and undefined exactly when no row has that id; when ids
    are unique, every plan of the table is found under its id.  The same
    holds of [getUserById] and of [getUserByEmail] for the e-mail. *)
Theorem lookups_by_key :
  (∀ i p, StorageMore.getPlanById db i = Some p →
          p ∈ Storage.plans db ∧ Plan.id p = i) ∧
  (∀ i, StorageMore.getPlanById db i = None ↔ i ∉ StorageMore.planIds db) ∧
  (NoDup (StorageMore.planIds db) →
   ∀ p, p ∈ Storage.plans db →
        StorageMore.getPlanById db (Plan.id p) = Some p) ∧
  (∀ i u, StorageMore.getUserById db i = Some u →
          u ∈ Storage.users db ∧ User.id u = i) ∧
  (∀ i, StorageMore.getUserById db i = None ↔ i ∉ StorageMore.userIds db) ∧
  (∀ e u, StorageMore.getUserByEmail db e = Some u →
          u ∈ Storage.users db ∧ User.email u = e) ∧
  (∀ e, StorageMore.getUserByEmail db e = None ↔
        e ∉ map User.email (Storage.users db)).
Proof.
  unfold StorageMore.getPlanById, StorageMore.getUserById,
    StorageMore.getUserByEmail, StorageMore.planIds, StorageMore.userIds.
  split; [intros i p Hp; by apply head_filter_Some in Hp as [? ?]|].
  split; [intros i; apply head_None_key|].
  split; [intros Hnd p Hp; by rewrite (filter_key_unique Plan.id _ p)|].
  split; [intros i u Hu; by apply head_filter_Some in Hu as [? ?]|].
  split; [intros i; apply head_None_key|].
  split; [intros e u Hu; by apply head_filter_Some in Hu as [? ?]|].
  intros e; apply head_None_key.
Qed.

(** X12.  The per-user lists [getPlansByUserId], [getWorkoutsByUserId]
    and [getProgressByUserId] hold exactly the rows of the given user,
    each as often as the table holds it, and come newest first. *)
Theorem per_user_lists (userId : string) :
  (StorageMore.getPlansByUserId db userId
     ≡ₚ filter (λ p, Plan.userId p = userId) (Storage.plans db) ∧
   StronglySorted (λ a b, Plan.createdAt b ≤ Plan.createdAt a)
     (StorageMore.getPlansByUserId db userId)) ∧
  (StorageMore.getWorkoutsByUserId db userId
     ≡ₚ filter (λ s, WorkoutSession.userId s = userId)
          (Storage.workoutSessions db) ∧
   StronglySorted (λ a b, WorkoutSession.date b ≤ WorkoutSession.date a)
     (StorageMore.getWorkoutsByUserId db userId)) ∧
  (StorageMore.getProgressByUserId db userId
     ≡ₚ filter (λ r, Progress.userId r = userId) (Storage.progress db) ∧
   StronglySorted (λ a b, Progress.date b ≤ Progress.date a)
     (StorageMore.getProgressByUserId db userId)).
Proof.
  unfold StorageMore.getPlansByUserId, StorageMore.getWorkoutsByUserId,
    StorageMore.getProgressByUserId.
  repeat split;
    first [apply Storage.orderByDesc_perm | apply Storage.orderByDesc_sorted].
Qed.

Lemma StronglySorted_take_drop {A} (R : relation A) (n : nat) (l : list A) :
  StronglySorted R l →
  StronglySorted R (take n l) ∧
  ∀ a b, a ∈ take n l → b ∈ drop n l → R a b.
Proof.
  intros Hsorted. rewrite <- (take_drop n l) in Hsorted.
  apply StronglySorted_app in Hsorted as (Hcross & Htake & _).
  split; [exact Htake|]. intros a b Ha Hb. by apply Hcross.
Qed.


Lemma length_filter_and {A} (P Q : A → Prop)
    `{∀ x, Decision (P x)} `{∀ x, Decision (Q x)} (l : list A) :
  (length (filter (λ x, P x ∧ Q x) l) ≤ length (filter P l))%nat.
Proof.
  induction l as [|x l IH]; [done|]. rewrite !filter_cons.
  destruct (decide (P x ∧ Q x)) as [[HP _]|], (decide (P x));
    simpl; try tauto; lia.
Qed.

(** X14.  In [getUserStats] the total is the number of sessions of the
    user, the count of this week lies between 0 and the total, and both
    are 0 for a user without sessions; the total of [getAdminStats] is
    at least the total of any user. *)
Theorem stats_bounds `{Storage.DateLib} (now : Z) (userId : string) :
  let stats := Storage.getUserStats db now userId in
  Storage.UserStats.totalWorkouts stats
    = Z.of_nat (length (StorageMore.getWorkoutsByUserId db userId)) ∧
  0 ≤ Storage.UserStats.thisWeek stats
    ≤ Storage.UserStats.totalWorkouts stats ∧
  ((∀ s, s ∈ Storage.workoutSessions db →
         WorkoutSession.userId s ≠ userId) →
   Storage.UserStats.totalWorkouts stats = 0 ∧
   Storage.UserStats.thisWeek stats = 0) ∧
  Storage.UserStats.totalWorkouts stats
    ≤ Storage.AdminStats.totalWorkouts (Storage.getAdminStats db).
Proof.
  cbv zeta. unfold Storage.getUserStats, Storage.getAdminStats,
    Storage.getWorkoutsThisWeek, Storage.count,
    StorageMore.getWorkoutsByUserId.
  cbn [Storage.UserStats.totalWorkouts Storage.UserStats.thisWeek
       Storage.AdminStats.totalWorkouts].
  pose proof (length_filter_and
                (λ s, WorkoutSession.userId s = userId)
                (λ s, Storage.startOfWeek now ≤ WorkoutSession.date s
                      ∧ WorkoutSession.date s ≤ Storage.endOfWeek now)
                (Storage.workoutSessions db)) as Hweek.
  cbv beta in Hweek.
  pose proof (length_filter (λ s, WorkoutSession.userId s = userId)
                (Storage.workoutSessions db)) as Hall.
  split; [by rewrite Storage.orderByDesc_perm|].
  split; [lia|]. split; [|lia].
  intros Hnone.
  assert (filter (λ s, WorkoutSession.userId s = userId)
                 (Storage.workoutSessions db) = []) as Hempty
      by (by apply filter_empty).
  rewrite Hempty in *. simpl in *. lia.
Qed.

(** *** Writes on the plans *)

Lemma planIds_app (l : list Plan.t) (p : Plan.t) :
  map Plan.id (l ++ [p]) = map Plan.id l ++ [Plan.id p].
Proof. by rewrite map_app. Qed.

Lemma filter_id_snoc (l : list Plan.t) (p : Plan.t) (j : string) :
  Plan.id p ∉ map Plan.id l →
  filter (λ q, Plan.id q = j) (l ++ [p]) =
  if decide (Plan.id p = j) then [p] else filter (λ q, Plan.id q = j) l.
Proof.
  intros Hfresh. rewrite list.filter_app, filter_cons, filter_nil.
  destruct (decide (Plan.id p = j)) as [<-|Hne]; [|by rewrite app_nil_r].
  replace (filter (λ q, Plan.id q = Plan.id p) l) with (@nil Plan.t); [done|].
  symmetry. apply filter_empty. intros q Hq Heq.
  apply Hfresh. rewrite <- Heq. apply list_elem_of_fmap. by exists q.
Qed.


Lemma filter_id_filter_ne (l : list Plan.t) (i j : string) :
  j ≠ i →
  filter (λ q, Plan.id q = j) (filter (λ q, Plan.id q ≠ i) l) =
  filter (λ q, Plan.id q = j) l.
Proof.
  intros Hne. induction l as [|p l IH]; [done|].
  rewrite (filter_cons (λ q, Plan.id q ≠ i)).
  destruct (decide (Plan.id p ≠ i)) as [Hp|Hp].
  - rewrite !filter_cons. destruct (decide (Plan.id p = j)); by rewrite IH.
  - rewrite IH, filter_cons. rewrite decide_False; [done|].
    intros Hpj. apply Hp. congruence.
Qed.

Lemma detach_planId (i : string) (s : WorkoutSession.t) (k : string) :
  WorkoutSession.planId (StorageMore.detach i s) = Some k →
  WorkoutSession.planId s = Some k ∧ k ≠ i.
Proof.
  unfold StorageMore.detach.
  destruct (decide (WorkoutSession.planId s = Some i)) as [Hs|Hs];
    [discriminate|].
  intros Hk. split; [done|]. intros ->. by apply Hs.
Qed.


Lemma patchPlan_id patch now p :
  Plan.id (StorageMore.patchPlan patch now p) = Plan.id p.
Proof. reflexivity. Qed.

Lemma filter_id_patched (l : list Plan.t) (i j : string) patch now :
  filter (λ q, Plan.id q = j)
    (map (λ p, if decide (Plan.id p = i)
               then StorageMore.patchPlan patch now p else p) l) =
  map (λ p, if decide (Plan.id p = i)
            then StorageMore.patchPlan patch now p else p)
    (filter (λ q, Plan.id q = j) l).
Proof.
  induction l as [|p l IH]; [done|].
  cbn [map]. rewrite !filter_cons.
  assert (Plan.id (if decide (Plan.id p = i)
                   then StorageMore.patchPlan patch now p else p)
          = Plan.id p) as -> by (by destruct (decide (Plan.id p = i))).
  destruct (decide (Plan.id p = j)); cbn [map]; by rewrite IH.
Qed.

Lemma map_patch_other (l : list Plan.t) (i j : string) patch now :
  j ≠ i →
  map (λ p, if decide (Plan.id p = i)
            then StorageMore.patchPlan patch now p else p)
    (filter (λ q, Plan.id q = j) l) =
  filter (λ q, Plan.id q = j) l.
Proof.
  intros Hne. rewrite <- (map_id (filter _ l)) at 2.
  apply map_ext_in. intros p Hp.
  apply list_elem_of_In, list_elem_of_filter in Hp as [Hp _].
  rewrite decide_False; [done|congruence].
Qed.


Lemma planIds_filter_ne (l : list Plan.t) (i : string) :
  map Plan.id (filter (λ p, Plan.id p ≠ i) l) =
  filter (λ k, k ≠ i) (map Plan.id l).
Proof.
  induction l as [|p l IH]; [done|].
  cbn [map]. rewrite !filter_cons.
  destruct (decide (Plan.id p ≠ i)); cbn [map]; by rewrite IH.
Qed.

Lemma NoDup_snoc {A} (l : list A) (x : A) :
  NoDup l → x ∉ l → NoDup (l ++ [x]).
Proof.
  intros Hl Hx. apply list.NoDup_app. split; [done|].
  split; [|apply NoDup_singleton].
  intros y Hy Hyx. apply list_elem_of_singleton in Hyx as ->. by apply Hx.
Qed.


End storage_more_facts.

(** ** The external plan service *)

Lemma or_else_truthy (s : option string) (dflt : string) :
  JS.truthy dflt = true → JS.truthy (OpenAIMore.or_else s dflt) = true.
Proof.
  intros Hd. unfold OpenAIMore.or_else.
  destruct s as [s|]; [|done]. by destruct (JS.truthy s) eqn:Hs.
Qed.

Lemma truthy_append (s t : string) :
  JS.truthy t = true → JS.truthy (s +:+ t) = true.
Proof. intros Ht. by destruct s. Qed.

Section openai_facts.
Context `{OpenAIMore.Json}.
Variable OPENAI_API_KEY : option string.

Local Abbreviation ask := (OpenAIMore.generateWorkoutPlan OPENAI_API_KEY).


End openai_facts.

(** ** The routes *)

Lemma getPlanById_deleted {real} (db : Storage.DB real) (id : string) :
  StorageMore.getPlanById (StorageMore.deletePlan db id) id = None.
Proof.
  unfold StorageMore.getPlanById, StorageMore.deletePlan.
  destruct (filter (λ p, Plan.id p = id) (Storage.plans db)) eqn:Hf.
  - by rewrite Hf.
  - cbn [Storage.plans]. apply head_filter_None. intros p Hp Hid.
    by apply list_elem_of_filter in Hp as [Hne _].
Qed.

Lemma denied_false (plan : Plan.t) (user : AuthUser.t) :
  Routes.denied plan user = false ↔
  Plan.userId plan = AuthUser.id user ∨ AuthUser.role user = "ADMIN".
Proof.
  unfold Routes.denied.
  repeat case_bool_decide; simpl; split; intros Hside;
    try reflexivity; try discriminate; tauto.
Qed.

Section plan_routes_facts.
Context {real : Type}.
Variable db : Storage.DB real.

(** X20.  GET /api/plans/:id sends a plan only if it is a stored plan
    with the id asked for whose owner is the caller, or the caller's role
    is "ADMIN".  For a stored plan of another user, a caller who is not
    an admin gets 403 "Access denied" and a caller with role "ADMIN" gets
    the plan with status 200; an id that no plan has gets 404. *)
Theorem getPlan_access (user : AuthUser.t) (id : string) :
  (∀ plan, Routes.payload (Routes.getPlan db user id) = Routes.PlanBody plan →
           plan ∈ Storage.plans db ∧ Plan.id plan = id ∧
           (Plan.userId plan = AuthUser.id user ∨
            AuthUser.role user = "ADMIN")) ∧
  (∀ plan, StorageMore.getPlanById db id = Some plan →
           Plan.userId plan ≠ AuthUser.id user →
           Routes.getPlan db user id =
             if decide (AuthUser.role user = "ADMIN")
             then Routes.Response 200 (Routes.PlanBody plan)
             else Routes.Response 403 (Routes.Message "Access denied")) ∧
  (id ∉ StorageMore.planIds db →
   Routes.getPlan db user id
     = Routes.Response 404 (Routes.Message "Plan not found")).
Proof.
  unfold Routes.getPlan. split; [|split].
  - intros plan.
    destruct (StorageMore.getPlanById db id) as [p|] eqn:Hp; [|discriminate].
    destruct (Routes.denied p user) eqn:Hd; [discriminate|].
    intros [= <-]. apply denied_false in Hd.
    unfold StorageMore.getPlanById in Hp.
    apply head_filter_Some in Hp as [Hin Hid]. done.
  - intros plan -> Hother.
    destruct (decide (AuthUser.role user = "ADMIN")) as [Hadmin|Hno].
    + assert (Routes.denied plan user = false) as ->
          by (apply denied_false; by right).
      done.
    + destruct (Routes.denied plan user) eqn:Hd; [done|].
      apply denied_false in Hd. tauto.
  - intros Hid. unfold StorageMore.getPlanById.
    apply head_None_key in Hid. by rewrite Hid.
Qed.

(** X21.  DELETE /api/plans/:id changes the database only when it
    answers 204, and it answers 204 only for a stored plan that the
    caller owns or that an admin asks to delete; afterwards no plan is
    found under that id.  A caller who neither owns the plan nor is an
    admin leaves the database as it is. *)
Theorem deletePlan_guard (user : AuthUser.t) (id : string) :
  let '(db', response) := Routes.deletePlan db user id in
  (Routes.status response = 204 ∨ db' = db) ∧
  (Routes.status response = 204 →
   (∃ plan, StorageMore.getPlanById db id = Some plan ∧
            (Plan.userId plan = AuthUser.id user ∨
             AuthUser.role user = "ADMIN")) ∧
   StorageMore.getPlanById db' id = None) ∧
  (∀ plan, StorageMore.getPlanById db id = Some plan →
           Plan.userId plan ≠ AuthUser.id user →
           AuthUser.role user ≠ "ADMIN" →
           db' = db ∧
           response = Routes.Response 403 (Routes.Message "Access denied")).
Proof.
  unfold Routes.deletePlan.
  destruct (StorageMore.getPlanById db id) as [p|] eqn:Hp.
  - destruct (Routes.denied p user) eqn:Hd.
    + split; [by right|]. split; [discriminate|]. by intros ? [= <-].
    + apply denied_false in Hd. split; [by left|]. split.
      * intros _. split; [by exists p|apply getPlanById_deleted].
      * intros plan [= <-]. tauto.
  - split; [by right|]. split; [discriminate|]. discriminate.
Qed.

End plan_routes_facts.

Lemma head_orderByDesc `{Storage.Engine} {A} (key : A → Z) (l : list A) :
  match head (Storage.orderByDesc key l) with
  | Some x => x ∈ l ∧ ∀ y, y ∈ l → key y ≤ key x
  | None => l = []
  end.
Proof.
  pose proof (Storage.orderByDesc_perm key l) as Hperm.
  pose proof (Storage.orderByDesc_sorted key l) as Hsort.
  destruct (Storage.orderByDesc key l) as [|x sorted]; simpl.
  - by apply Permutation_nil_l in Hperm.
  - split; [rewrite <- Hperm; left|].
    intros y Hy. rewrite <- Hperm in Hy.
    apply StronglySorted_inv in Hsort as [_ Hall].
    apply elem_of_cons in Hy as [->|Hy]; [lia|].
    rewrite list.Forall_forall in Hall. by apply Hall.
Qed.

Section generate_facts.
Context `{OpenAIMore.Json} `{Storage.Engine} {real : Type}.
Variable OPENAI_API_KEY : option string.
Variable db : Storage.DB real.

Local Abbreviation generate' := (Routes.generate OPENAI_API_KEY db).

Lemma generate_inv user params completion newId now db' stored :
  generate' user (Routes.Valid params) completion newId now
    = (db', Routes.Response 201 (Routes.PlanBody stored)) →
  StorageMore.createPlan db newId now
    (StorageMore.InsertPlan.mk (AuthUser.id user)
       (GeneratedPlan.title (Routes.planData OPENAI_API_KEY params completion))
       (Some (GeneratedPlan.description
                (Routes.planData OPENAI_API_KEY params completion)))
       (GeneratePlanData.goal params) (GeneratePlanData.level params)
       (GeneratePlanData.frequencyPerWeek params)
       (GeneratePlanData.durationWeeks params)
       (Some (GeneratedPlan.data
                (Routes.planData OPENAI_API_KEY params completion)))
       (Some (OpenAIMore.configured OPENAI_API_KEY)) (Some ACTIVE)
       (Some Routes.disclaimer))
    = Return (db', stored).
Proof.
  unfold Routes.generate. cbv zeta.
  destruct (StorageMore.createPlan _ _ _ _) as [[d p]|e]; [|discriminate].
  by intros [= <- <-].
Qed.

(** X22.  The plan POST /api/plans/generate stores belongs to the
    caller, has status ACTIVE and is appended to the plans without
    touching the others.  Its flag generatedByAI tells whether a key is
    configured, not where the plan came from: with a key and a failing
    call to the service, the stored title, description and weeks are
    those of the fallback plan and the flag is still true. *)
Theorem generate_flag (user : AuthUser.t) (params : GeneratePlanData.t)
    (completion : result string (option string)) (newId : string) (now : Z)
    (db' : Storage.DB real) (stored : Plan.t) :
  generate' user (Routes.Valid params) completion newId now
    = (db', Routes.Response 201 (Routes.PlanBody stored)) →
  Plan.userId stored = AuthUser.id user ∧
  Plan.status stored = ACTIVE ∧
  Plan.generatedByAI stored = OpenAIMore.configured OPENAI_API_KEY ∧
  Storage.plans db' = Storage.plans db ++ [stored] ∧
  ((OpenAIMore.configured OPENAI_API_KEY = false ∨
    ∃ e, OpenAIMore.generateWorkoutPlan OPENAI_API_KEY params completion
           = Throw e) →
   Plan.title stored = GeneratedPlan.title (generateFallbackPlan params) ∧
   Plan.description stored
     = Some (GeneratedPlan.description (generateFallbackPlan params)) ∧
   Plan.data stored
     = Some (GeneratedPlan.data (generateFallbackPlan params))).
Proof.
  intros Hgen. apply generate_inv in Hgen.
  unfold StorageMore.createPlan in Hgen.
  destruct (decide (newId ∈ StorageMore.planIds db)); [discriminate|].
  destruct (decide (_ ∈ StorageMore.userIds db)); [|discriminate].
  injection Hgen as <- <-.
  cbn [Plan.userId Plan.status Plan.generatedByAI Plan.title Plan.description
       Plan.data Storage.plans StorageMore.InsertPlan.userId
       StorageMore.InsertPlan.status StorageMore.InsertPlan.generatedByAI
       StorageMore.InsertPlan.title StorageMore.InsertPlan.description
       StorageMore.InsertPlan.data default].
  repeat (split; [reflexivity|]).
  intros Hfallback.
  assert (Routes.planData OPENAI_API_KEY params completion
          = generateFallbackPlan params) as ->; [|done].
  unfold Routes.planData.
  destruct Hfallback as [-> | [err ->]]; [done|].
  by destruct (OpenAIMore.configured OPENAI_API_KEY).
Qed.

(** X23.  Generating a plan does not retire the earlier ones: every plan
    stored before is still stored with the status it had.  When the
    database clock is past the creation time of every stored plan, the
    plan just generated is the one [getActivePlanByUserId] returns for
    the caller. *)
Theorem generate_becomes_active (user : AuthUser.t)
    (params : GeneratePlanData.t)
    (completion : result string (option string)) (newId : string) (now : Z)
    (db' : Storage.DB real) (stored : Plan.t) :
  generate' user (Routes.Valid params) completion newId now
    = (db', Routes.Response 201 (Routes.PlanBody stored)) →
  (∀ q, q ∈ Storage.plans db → q ∈ Storage.plans db') ∧
  ((∀ q, q ∈ Storage.plans db → Plan.createdAt q < now) →
   Storage.getActivePlanByUserId db' (AuthUser.id user) = Some stored).
Proof.
  intros Hgen. apply generate_inv in Hgen.
  unfold StorageMore.createPlan in Hgen.
  destruct (decide (newId ∈ StorageMore.planIds db)) as [|Hfresh];
    [discriminate|].
  destruct (decide (_ ∈ StorageMore.userIds db)); [|discriminate].
  injection Hgen as <- <-. cbn [Storage.plans].
  split; [intros q Hq; apply elem_of_app; by left|].
  intros Hpast. unfold Storage.getActivePlanByUserId.
  rewrite head_take_1. cbn [Storage.plans].
  match goal with |- head (Storage.orderByDesc _ ?l) = Some ?p =>
    set (rows := l); set (new := p) end.
  assert (new ∈ rows) as Hnew.
  { apply list_elem_of_filter. split; [done|].
    apply elem_of_app. right. left. }
  pose proof (head_orderByDesc Plan.createdAt rows) as Hhead.
  destruct (head (Storage.orderByDesc Plan.createdAt rows)) as [p|].
  - destruct Hhead as [Hp Hmax]. specialize (Hmax new Hnew).
    apply list_elem_of_filter in Hp as [_ Hp].
    apply elem_of_app in Hp as [Hold|Hp].
    + specialize (Hpast p Hold). cbn [Plan.createdAt new] in Hmax. lia.
    + by apply list_elem_of_singleton in Hp as ->.
  - rewrite Hhead in Hnew. by apply elem_of_nil in Hnew.
Qed.

End generate_facts.

Lemma filter_email_snoc (l : list User.t) (u : User.t) :
  User.email u ∉ map User.email l →
  filter (λ v, User.email v = User.email u) (l ++ [u]) = [u].
Proof.
  intros Hfresh. rewrite list.filter_app, filter_cons, filter_nil.
  rewrite decide_True by done.
  replace (filter (λ v, User.email v = User.email u) l) with (@nil User.t);
    [done|].
  symmetry. apply filter_empty. intros v Hv Heq.
  apply Hfresh. rewrite <- Heq. apply list_elem_of_fmap. by exists v.
Qed.

Section auth_routes_facts.
Context `{Jwt.Lib} `{Bcrypt.Lib} {real : Type}.
Variable SESSION_SECRET : option string.
Variable db : Storage.DB real.

Local Abbreviation signup' := (Routes.signup SESSION_SECRET db).

Lemma signup_201 data salt newId now db' safe token :
  signup' (Routes.Valid data) salt newId now
    = (db', Routes.Response 201 (Routes.UserToken safe token)) →
  let stored :=
    User.mk newId (Routes.SignupData.email data)
      (Auth.hashPassword (Routes.SignupData.password data) salt)
      (Routes.SignupData.name data) "USER" in
  (Routes.SignupData.email data ∉ map User.email (Storage.users db)) ∧
  db' = Storage.mkDB (Storage.users db ++ [stored]) (Storage.plans db)
          (Storage.workoutSessions db) (Storage.progress db) ∧
  safe = Routes.safeUser stored ∧
  token = Auth.generateToken SESSION_SECRET stored now.
Proof.
  unfold Routes.signup.
  destruct (StorageMore.getUserByEmail db _) eqn:Hmail; [discriminate|].
  unfold StorageMore.createUser.
  destruct (decide (newId ∈ StorageMore.userIds db)); [discriminate|].
  destruct (decide (_ ∈ map User.email _)) as [|Hfresh]; [discriminate|].
  cbn [StorageMore.InsertUser.email StorageMore.InsertUser.password
       StorageMore.InsertUser.name StorageMore.InsertUser.role default
       StorageMore.Role_str].
  by intros [= <- <- <-].
Qed.



(** X26.  A signup changes the database only when it answers 201, and it
    never alters or removes a stored user.  An e-mail that is already
    stored gets 400 "Email already in use", and a body the schema
    refuses gets 400 with the schema's first message, or "Validation
    error" when that message is missing or empty. *)
Theorem signup_outcomes (body : Routes.parsed Routes.SignupData.t)
    (salt : Bcrypt.salt) (newId : string) (now : Z) :
  (Routes.status (snd (signup' body salt newId now)) = 201 ∨
   fst (signup' body salt newId now) = db) ∧
  (∃ added, Storage.users (fst (signup' body salt newId now))
              = Storage.users db ++ added) ∧
  (∀ data, body = Routes.Valid data →
           Routes.SignupData.email data ∈ map User.email (Storage.users db) →
           signup' body salt newId now
             = (db, Routes.Response 400
                      (Routes.Message "Email already in use"))) ∧
  (∀ firstMessage, body = Routes.Invalid firstMessage →
     signup' body salt newId now
       = (db, Routes.Response 400
                (Routes.Message
                   (match firstMessage with
                    | Some (String c m) => String c m
                    | _ => "Validation error"
                    end)))).
Proof.
  unfold Routes.signup. destruct body as [data|firstMessage].
  - destruct (StorageMore.getUserByEmail db _) as [u|] eqn:Hmail.
    + cbn [fst snd]. split; [by right|].
      split; [exists []; by rewrite app_nil_r|]. split; [|discriminate].
      by intros d [= <-] _.
    + unfold StorageMore.getUserByEmail in Hmail.
      apply head_None_key in Hmail.
      destruct (StorageMore.createUser db newId _) as [[d u]|e] eqn:Hcreate;
        cbn [fst snd Routes.status].
      * split; [by left|]. split; [|split; [|discriminate]].
        -- unfold StorageMore.createUser in Hcreate.
           repeat (destruct (decide _); [discriminate|]).
           injection Hcreate as <- <-. by eexists.
        -- by intros d' [= <-] Hin.
      * split; [by right|].
        split; [exists []; by rewrite app_nil_r|]. split; [|discriminate].
        by intros d' [= <-] Hin.
  - cbn [fst snd]. split; [by right|].
    split; [exists []; by rewrite app_nil_r|]. split; [discriminate|].
    intros msg [= <-]. unfold Routes.validationError, OpenAIMore.or_else.
    by destruct firstMessage as [[|c m]|].
Qed.

End auth_routes_facts.

(** ** The further statements on examples *)

Lemma MoreExamples_db_consistent : StorageMore.consistent MoreExamples.db.
Proof.
  unfold StorageMore.consistent.
  split; [apply (bool_decide_unpack _); vm_compute; exact I|].
  split; [apply (bool_decide_unpack _); vm_compute; exact I|].
  split; [apply (bool_decide_unpack _); vm_compute; exact I|].
  split; [apply (bool_decide_unpack _); vm_compute; exact I|].
  apply list.Forall_forall. intros s Hs i Hi.
  repeat (apply elem_of_cons in Hs as [->|Hs];
          [try discriminate Hi; injection Hi as <-;
           apply (bool_decide_unpack _); vm_compute; exact I|]).
  by apply elem_of_nil in Hs.
Qed.

Lemma requireAuth_outcomes_witness :
  Auth.requireAuth (H := clearTokens) None
    (Auth.Request.mk (Some "Basic dXNlcg==") None) 0
  = Return (Auth.Responded 401 "Authentication required").
Proof.
  destruct (requireAuth_outcomes (H := clearTokens) None
              (Auth.Request.mk (Some "Basic dXNlcg==") None) 0)
    as (Hnone & _ & _).
  apply Hnone. right. exists "Basic dXNlcg==". split; reflexivity.
Defined.

Lemma optionalAuth_never_rejects_witness :
  AuthMore.optionalAuth (H := clearTokens) None
    (Auth.Request.mk (Some "Basic dXNlcg==") None) 0
  = Return (Auth.Next (Auth.Request.mk (Some "Basic dXNlcg==") None)).
Proof.
  destruct (optionalAuth_never_rejects (H := clearTokens) None
              (Auth.Request.mk (Some "Basic dXNlcg==") None) 0)
    as (_ & _ & Hrejected).
  apply (Hrejected 401 "Authentication required"). reflexivity.
Defined.

Lemma admin_chain_witness :
  AuthMore.requireAuthThenAdmin (H := clearTokens) None
    (Auth.Request.mk
       (Some ("Bearer " +:+ Auth.generateToken (H := clearTokens) None
                              Examples.alice 1700000000000))
       None)
    1700000001000
  = Return (Auth.Responded 403 "Admin access required").
Proof.
  destruct (admin_chain (H := clearTokens) None
              (Auth.Request.mk
                 (Some ("Bearer " +:+ Auth.generateToken (H := clearTokens)
                                        None Examples.alice 1700000000000))
                 None)
              1700000001000) as (_ & Hissued).
  apply (Hissued Examples.alice 1700000000000).
  - vm_compute. reflexivity.
  - reflexivity.
Defined.

Lemma default_secret_accepts_witness :
  Auth.requireAuth (H := clearTokens) None
    (Auth.Request.mk
       (Some ("Bearer " +:+ Jwt.sign (Lib := clearTokens)
                              (Jwt.mkClaims "u0" "eve@example.com" "ADMIN")
                              "fitstack-secret-key" 1000000 0))
       None)
    5000
  = Return
      (Auth.Next
         (Auth.Request.mk
            (Some ("Bearer " +:+ Jwt.sign (Lib := clearTokens)
                                   (Jwt.mkClaims "u0" "eve@example.com" "ADMIN")
                                   "fitstack-secret-key" 1000000 0))
            (Some (AuthUser.mk "u0" "eve@example.com" "ADMIN")))).
Proof.
  apply (default_secret_accepts (H := clearTokens) None
           (Jwt.mkClaims "u0" "eve@example.com" "ADMIN") 1000000 0 5000).
  - by left.
  - vm_compute. reflexivity.
  - reflexivity.
Defined.

Lemma lookups_by_key_witness :
  StorageMore.getPlanById MoreExamples.db "p2"
    = Some (Examples.plan "p2" "u1" PAUSED 2000).
Proof.
  destruct (lookups_by_key MoreExamples.db) as (_ & _ & Hfound & _).
  apply (Hfound (proj1 (proj2 (proj2 MoreExamples_db_consistent)))
           (Examples.plan "p2" "u1" PAUSED 2000)).
  right. left.
Defined.


Lemma stats_bounds_witness :
  Storage.UserStats.totalWorkouts
    (Storage.getUserStats (H0 := utcDates) MoreExamples.db 3000 "u9") = 0 ∧
  Storage.UserStats.thisWeek
    (Storage.getUserStats (H0 := utcDates) MoreExamples.db 3000 "u9") = 0.
Proof.
  destruct (stats_bounds (H := mergeSortEngine) MoreExamples.db
              (H0 := utcDates) 3000 "u9") as (_ & _ & Hnone & _).
  apply Hnone. intros s Hs.
  repeat (apply elem_of_cons in Hs as [->|Hs]; [discriminate|]).
  by apply elem_of_nil in Hs.
Defined.






Lemma getPlan_access_witness :
  Routes.getPlan MoreExamples.db MoreExamples.aliceAuth "p3"
  = Routes.Response 403 (Routes.Message "Access denied").
Proof.
  destruct (getPlan_access MoreExamples.db MoreExamples.aliceAuth "p3")
    as (_ & Hother & _).
  apply (Hother (Examples.plan "p3" "u2" ACTIVE 3000));
    [reflexivity|discriminate].
Defined.

Lemma deletePlan_guard_witness :
  Routes.deletePlan MoreExamples.db MoreExamples.aliceAuth "p3"
  = (MoreExamples.db, Routes.Response 403 (Routes.Message "Access denied")).
Proof.
  pose proof (deletePlan_guard MoreExamples.db MoreExamples.aliceAuth "p3")
    as Hguard.
  destruct (Routes.deletePlan MoreExamples.db MoreExamples.aliceAuth "p3")
    as [db' response].
  destruct Hguard as (_ & _ & Hother).
  destruct (Hother (Examples.plan "p3" "u2" ACTIVE 3000)) as [-> ->];
    [reflexivity|discriminate|discriminate|reflexivity].
Defined.

Lemma generate_flag_witness :
  Plan.generatedByAI MoreExamples.generated = true ∧
  Plan.title MoreExamples.generated
    = GeneratedPlan.title (generateFallbackPlan Examples.request) ∧
  Plan.data MoreExamples.generated
    = Some (GeneratedPlan.data (generateFallbackPlan Examples.request)).
Proof.
  destruct (generate_flag (H := MoreExamples.twoReplies) (Some "sk-test")
              MoreExamples.db MoreExamples.aliceAuth Examples.request
              (Throw "timeout") "p9" 5000
              (MoreExamples.withPlan MoreExamples.generated)
              MoreExamples.generated)
    as (_ & _ & Hflag & _ & Hfallback).
  - vm_compute. reflexivity.
  - split; [exact Hflag|].
    destruct Hfallback as (Htitle & _ & Hdata);
      [right; by eexists|]. by split.
Defined.

Lemma generate_becomes_active_witness :
  Storage.getActivePlanByUserId (H := mergeSortEngine)
    (MoreExamples.withPlan MoreExamples.generated)
    (AuthUser.id MoreExamples.aliceAuth)
  = Some MoreExamples.generated.
Proof.
  assert (Routes.generate (H1 := MoreExamples.twoReplies) (Some "sk-test")
            MoreExamples.db MoreExamples.aliceAuth
            (Routes.Valid Examples.request) (Throw "timeout") "p9" 5000
          = (MoreExamples.withPlan MoreExamples.generated,
             Routes.Response 201 (Routes.PlanBody MoreExamples.generated)))
    as Hgenerated by (vm_compute; reflexivity).
  destruct (generate_becomes_active (H := MoreExamples.twoReplies)
              (H0 := mergeSortEngine) (Some "sk-test")
              MoreExamples.db MoreExamples.aliceAuth Examples.request
              (Throw "timeout") "p9" 5000
              (MoreExamples.withPlan MoreExamples.generated)
              MoreExamples.generated Hgenerated) as (_ & Hactive).
  clear Hgenerated. apply Hactive. clear Hactive. intros q Hq.
  repeat (apply elem_of_cons in Hq as [->|Hq]; [simpl; lia|]).
  apply elem_of_nil in Hq. destruct Hq.
Defined.



Lemma signup_outcomes_witness :
  Routes.signup (H := clearTokens) (H0 := keepLong) None MoreExamples.db
    (Routes.Valid
       (Routes.SignupData.mk "alice@example.com" "another one" "Alice"))
    tt "u3" 1000
  = (MoreExamples.db,
     Routes.Response 400 (Routes.Message "Email already in use")).
Proof.
  destruct (signup_outcomes (H := clearTokens) (H0 := keepLong) None
              MoreExamples.db
              (Routes.Valid
                 (Routes.SignupData.mk "alice@example.com" "another one"
                    "Alice"))
              tt "u3" 1000) as (_ & _ & Htaken & _).
  apply (Htaken _ eq_refl). left.
Defined.
